(** * Fincat: the chat command interpreter and the earnings normalizer

    A shallow embedding of [src/backend/__init__.py] (the [chat] endpoint
    working on the module-level dictionary [_STOCKS]) and of
    [src/scripts/earnings_data.py] ([get_earnings_calendar]).

    Modelling conventions.
    - Python [str] values are Rocq [string]s.  Whitespace and case
      conversion follow Python on the ASCII range; bytes above 127 are
      carried along unchanged and are never whitespace.
    - Python [float] is an abstract type [pyfloat]; the builtin [float(...)]
      on a string and the formatting of a float inside an f-string are the
      section variables [float_of_str] and [str_of_float].
    - [_STOCKS] is an insertion-ordered dictionary: an association list with
      the dictionary operations written out, threaded through [chat] as
      explicit state.
    - The [yfinance] objects are described by what the code observes of
      them; a call that may raise returns an [outcome].
    - The statements of the [try] block of [get_earnings_calendar] run in
      a state-and-exception monad over the entry being filled: what was
      written before an exception stays written when the entry is
      appended.  [float(v)] returns, raises [TypeError] or [ValueError]
      (which the key loops handle), or raises something else (as
      [OverflowError] on an integer too large for a float), which leaves
      the [try] block.  The [date()] of an index may be a date or [NaT].
    - [dt] is the standard [datetime] module (the source imports it under
      the name [datatime]); [dt.date.today()] reads a clock that is part of
      the environment, and the number of readings is counted. *)

From Stdlib Require Import ZArith Ascii String List Lia Permutation.
From Stdlib Require Import Sorting.Sorted DecimalString.
From stdpp Require Import base option list sorting strings gmap.

Local Open Scope string_scope.
Local Open Scope list_scope.

(** ** Python string primitives *)

Module PyStr.

(** [str.isspace] on one ASCII character: TAB, LF, VT, FF, CR, the four
    separators 0x1c-0x1f and the space. *)
Definition is_space (c : ascii) : bool :=
  let n := nat_of_ascii c in
  ((9 <=? n)%nat && (n <=? 13)%nat) || ((28 <=? n)%nat && (n <=? 32)%nat).

Definition lower_char (c : ascii) : ascii :=
  let n := nat_of_ascii c in
  if ((65 <=? n)%nat && (n <=? 90)%nat) then ascii_of_nat (n + 32) else c.

Definition upper_char (c : ascii) : ascii :=
  let n := nat_of_ascii c in
  if ((97 <=? n)%nat && (n <=? 122)%nat) then ascii_of_nat (n - 32) else c.

Fixpoint lower (s : string) : string :=
  match s with
  | EmptyString => EmptyString
  | String c s' => String (lower_char c) (lower s')
  end.

Fixpoint upper (s : string) : string :=
  match s with
  | EmptyString => EmptyString
  | String c s' => String (upper_char c) (upper s')
  end.

Fixpoint lstrip (s : string) : string :=
  match s with
  | EmptyString => EmptyString
  | String c s' => if is_space c then lstrip s' else s
  end.

Fixpoint rstrip (s : string) : string :=
  match s with
  | EmptyString => EmptyString
  | String c s' =>
      match rstrip s' with
      | EmptyString => if is_space c then EmptyString else String c EmptyString
      | r => String c r
      end
  end.

(** [s.strip()] *)
Definition strip (s : string) : string := rstrip (lstrip s).

(** [s.split()] with no separator: the maximal runs of non-whitespace
    characters.  [cur] is the run being read, in reverse. *)
Fixpoint split_from (cur : list ascii) (s : string) : list string :=
  match s with
  | EmptyString =>
      match cur with
      | [] => []
      | _ => [string_of_list_ascii (rev cur)]
      end
  | String c s' =>
      if is_space c then
        match cur with
        | [] => split_from [] s'
        | _ => string_of_list_ascii (rev cur) :: split_from [] s'
        end
      else split_from (c :: cur) s'
  end.

Definition split (s : string) : list string := split_from [] s.

(** [sep.join(l)] *)
Fixpoint join (sep : string) (l : list string) : string :=
  match l with
  | [] => EmptyString
  | [x] => x
  | x :: rest => x ++ sep ++ join sep rest
  end.

(** [str(n)] for a non-negative integer. *)
Definition str_of_nat (n : nat) : string :=
  NilZero.string_of_uint (Nat.to_uint n).

(** The slice [l[2:-1]]. *)
Definition slice_2_m1 {A} (l : list A) : list A :=
  drop 2 (take (length l - 1) l).

(** [l[-1]] on a non-empty list of strings. *)
Definition last_tok (l : list string) : string := List.last l EmptyString.

End PyStr.

Import PyStr.

(** A string made of white space only (the empty string included). *)
Definition all_space (s : string) : bool :=
  forallb is_space (list_ascii_of_string s).

(** ** The backend: [Stock], [_STOCKS] and [chat] *)

Module Dict.

(** A Python [dict] with string keys: insertion-ordered, keys unique. *)
Definition t (V : Type) : Type := list (string * V).

Section Ops.
Context {V : Type}.

(** [d[k]] / [k in d] *)
Fixpoint get (k : string) (d : t V) : option V :=
  match d with
  | [] => None
  | (k', v) :: d' => if String.eqb k k' then Some v else get k d'
  end.

Definition mem (k : string) (d : t V) : bool :=
  match get k d with Some _ => true | None => false end.

(** [d[k] = v]: an existing key keeps its position, a new key goes
    last. *)
Fixpoint set (k : string) (v : V) (d : t V) : t V :=
  match d with
  | [] => [(k, v)]
  | (k', v') :: d' =>
      if String.eqb k k' then (k, v) :: d' else (k', v') :: set k v d'
  end.

(** [del d[k]] *)
Fixpoint del (k : string) (d : t V) : t V :=
  match d with
  | [] => []
  | (k', v') :: d' =>
      if String.eqb k k' then del k d' else (k', v') :: del k d'
  end.

(** [list(d.values())] *)
Definition values (d : t V) : list V := map snd d.

Definition keys (d : t V) : list string := map fst d.

(** [len(d)] *)
Definition len (d : t V) : nat := length d.
End Ops.

End Dict.

Module Backend.

Section WithFloat.

(** Python's [float]: the type, [float(s)] on a string ([None] stands for
    [ValueError]) and [str(x)] as used by f-strings. *)
Variable pyfloat : Type.
Variable float_of_str : string -> option pyfloat.
Variable str_of_float : pyfloat -> string.

Record Stock : Type := mkStock {
  symbol : string;
  name : string;
  price : pyfloat;
  notes : option string
}.

Record ChatResponse : Type := mkChatResponse {
  reply : string;
  stocks : list Stock
}.

(** [existing.copy(update={"price": price})] *)
Definition copy_update_price (existing : Stock) (p : pyfloat) : Stock :=
  {| symbol := symbol existing; name := name existing;
     price := p; notes := notes existing |}.

Definition usage_text : string :=
  "Please type a command like 'add AAPL Apple 195.3' or 'list'.".

Definition add_parse_error : string :=
  "Could not parse price. Use something like 'add AAPL Apple 195.3'".

Definition update_parse_error : string :=
  "Could not parse price. Use something like 'update AAPL 200.0'".

Definition help_text : string :=
  "I support: 'list', 'add SYMBOL NAME PRICE', 'remove SYMBOL', " ++
  "and 'update SYMBOL PRICE'.".

Definition not_in_list (sym : string) : string :=
  sym ++ " is not in your list.".

Definition respond (r : string) (st : Dict.t Stock)
  : ChatResponse * Dict.t Stock :=
  ({| reply := r; stocks := Dict.values st |}, st).

(** [chat]: the request message and the current [_STOCKS] go in, the
    response and the new [_STOCKS] come out. *)
Definition chat (message : string) (STOCKS : Dict.t Stock)
  : ChatResponse * Dict.t Stock :=
  let text := strip message in
  let lower_text := lower text in
  if String.eqb lower_text "list" then
    respond ("You currently have " ++ str_of_nat (Dict.len STOCKS)
             ++ " stock(s).") STOCKS
  else
    let parts := split text in
    match parts with
    | [] => respond usage_text STOCKS
    | p0 :: _ =>
        let cmd := lower p0 in
        if String.eqb cmd "add" && (4 <=? length parts)%nat then
          let sym := upper (nth 1 parts EmptyString) in
          match float_of_str (last_tok parts) with
          | None => respond add_parse_error STOCKS
          | Some pr =>
              let nm := join " " (slice_2_m1 parts) in
              let stock :=
                {| symbol := sym; name := nm; price := pr; notes := None |} in
              respond ("Added " ++ sym ++ " (" ++ nm ++ ") at "
                       ++ str_of_float pr ++ ".")
                      (Dict.set sym stock STOCKS)
          end
        else if String.eqb cmd "remove" && (length parts =? 2)%nat then
          let sym := upper (nth 1 parts EmptyString) in
          if negb (Dict.mem sym STOCKS) then
            respond (not_in_list sym) STOCKS
          else
            respond ("Removed " ++ sym ++ ".") (Dict.del sym STOCKS)
        else if String.eqb cmd "update" && (length parts =? 3)%nat then
          let sym := upper (nth 1 parts EmptyString) in
          match Dict.get sym STOCKS with
          | None => respond (not_in_list sym) STOCKS
          | Some existing =>
              match float_of_str (nth 2 parts EmptyString) with
              | None => respond update_parse_error STOCKS
              | Some pr =>
                  respond ("Updated " ++ sym ++ " to "
                           ++ str_of_float pr ++ ".")
                          (Dict.set sym (copy_update_price existing pr) STOCKS)
              end
          end
        else respond help_text STOCKS
    end.

End WithFloat.

End Backend.

Import Backend.

(** ** The backend: the CRUD endpoints on [_STOCKS] *)

Module Crud.

(** [HTTPException(status_code=..., detail=...)] *)
Record HTTPException : Type := mkHTTPException {
  status_code : nat;
  detail : string
}.

(** What an endpoint hands back: its return value, or the exception it
    raises. *)
Inductive response (A : Type) : Type :=
| Ok (a : A)
| Raised (e : HTTPException).
Arguments Ok {A} a.
Arguments Raised {A} e.

Section WithFloat.

Variable pyfloat : Type.

(** [stock.copy(update={"symbol": key})] *)
Definition copy_update_symbol (stock : Stock pyfloat) (key : string)
  : Stock pyfloat :=
  {| symbol := key; name := name pyfloat stock;
     price := price pyfloat stock; notes := notes pyfloat stock |}.

(** [GET /stocks], lines 30-33. *)
Definition list_stocks (STOCKS : Dict.t (Stock pyfloat))
  : list (Stock pyfloat) :=
  Dict.values STOCKS.

(** [POST /stocks], lines 36-43. *)
Definition add_stock (stock : Stock pyfloat) (STOCKS : Dict.t (Stock pyfloat))
  : response (Stock pyfloat) * Dict.t (Stock pyfloat) :=
  let key := upper (symbol pyfloat stock) in
  if Dict.mem key STOCKS then
    (Raised {| status_code := 400; detail := "Stock already exists" |},
     STOCKS)
  else (Ok stock, Dict.set key stock STOCKS).

(** [PUT /stocks/{symbol}], lines 46-55. *)
Definition update_stock (sym : string) (stock : Stock pyfloat)
    (STOCKS : Dict.t (Stock pyfloat))
  : response (Stock pyfloat) * Dict.t (Stock pyfloat) :=
  let key := upper sym in
  if negb (Dict.mem key STOCKS) then
    (Raised {| status_code := 404; detail := "Stock not found" |}, STOCKS)
  else
    let updated := copy_update_symbol stock key in
    (Ok updated, Dict.set key updated STOCKS).

(** [DELETE /stocks/{symbol}], lines 58-65; the value returned is the
    dictionary [{"status": "ok"}]. *)
Definition delete_stock (sym : string) (STOCKS : Dict.t (Stock pyfloat))
  : response (list (string * string)) * Dict.t (Stock pyfloat) :=
  let key := upper sym in
  if negb (Dict.mem key STOCKS) then
    (Raised {| status_code := 404; detail := "Stock not found" |}, STOCKS)
  else (Ok [("status", "ok")], Dict.del key STOCKS).

(** The shape every operation on [_STOCKS] keeps: keys are unique, and
    each record sits under the upper-cased form of its own symbol. *)
Definition well_keyed (STOCKS : Dict.t (Stock pyfloat)) : Prop :=
  NoDup (Dict.keys STOCKS)
  /\ Forall (fun kv => fst kv = upper (symbol pyfloat (snd kv))) STOCKS.

End WithFloat.

End Crud.

(** ** The earnings helper: dates, rows and the [yfinance] objects *)

Module PyDate.

(** [datetime.date] *)
Record date : Type := mkDate { year : Z; month : Z; day : Z }.

(** [a < b] on dates: lexicographic on (year, month, day). *)
Definition ltb (a b : date) : bool :=
  (year a <? year b)%Z
  || ((year a =? year b)%Z
      && ((month a <? month b)%Z
          || ((month a =? month b)%Z && (day a <? day b)%Z))).

(** [a <= b] *)
Definition leb (a b : date) : bool := negb (ltb b a).

(** [a >= b] *)
Definition geb (a b : date) : bool := leb b a.

(** Decimal digits of [n], padded with zeros on the left to [width]. *)
Definition zero_pad (width : nat) (n : Z) : string :=
  let digits := str_of_nat (Z.to_nat n) in
  string_of_list_ascii (repeat "0"%char (width - String.length digits))
  ++ digits.

(** [d.isoformat()]: YYYY-MM-DD *)
Definition isoformat (d : date) : string :=
  zero_pad 4 (year d) ++ "-" ++ zero_pad 2 (month d) ++ "-"
  ++ zero_pad 2 (day d).

End PyDate.

Import PyDate.

(** [not l] on a list. *)
Definition null {A} (l : list A) : bool :=
  match l with [] => true | _ => false end.

(** The result of a call that may raise. *)
Inductive outcome (A : Type) : Type :=
| Returns (a : A)
| Raises.
Arguments Returns {A} a.
Arguments Raises {A}.

(** Stable insertion sort of (date, row) pairs on the date; [le] is the
    order of the keys.  [list.sort(key=...)] and
    [sorted(..., key=..., reverse=True)] are both stable, so they are
    [sort_by leb] and [sort_by geb]. *)
Section StableSort.
Context {R : Type}.
Variable le : date -> date -> bool.

Fixpoint insert_by (x : date * R) (l : list (date * R)) : list (date * R) :=
  match l with
  | [] => [x]
  | y :: l' =>
      if le (fst x) (fst y) then x :: y :: l' else y :: insert_by x l'
  end.

Fixpoint sort_by (l : list (date * R)) : list (date * R) :=
  match l with
  | [] => []
  | x :: l' => insert_by x (sort_by l')
  end.
End StableSort.

Module Earnings.

Section WithFloat.

Variable pyfloat : Type.
Variable float_of_str : string -> option pyfloat.
(** [dt.date.fromisoformat]; [None] stands for the exception it raises. *)
Variable fromisoformat : string -> option date.

(** A value found in a row.  [VHuge] is an integer too large for a float:
    [float] raises [OverflowError] on it. *)
Inductive cell : Type :=
| VNone
| VFloat (x : pyfloat)
| VStr (s : string)
| VObj
| VHuge.

(** What [float(v)] does: it returns a float, raises [TypeError] or
    [ValueError] (the two exceptions the key loops handle), or raises
    another exception. *)
Inductive conversion : Type :=
| Converted (x : pyfloat)
| Refused
| Broke.

Definition float_of_cell (v : cell) : conversion :=
  match v with
  | VNone => Refused
  | VFloat x => Converted x
  | VStr s => match float_of_str s with Some x => Converted x | None => Refused end
  | VObj => Refused
  | VHuge => Broke
  end.

Definition is_not_none (v : cell) : bool :=
  match v with VNone => false | _ => true end.

(** A row of the frame: field name to value. *)
Definition row : Type := gmap string cell.

(** The [for key in (...)] loops of lines 123-129, 141-147, 149-155 and
    157-163: the variable starts as [None]; the first key that is in the
    row with a non-[None] value that [float] accepts sets it and breaks
    the loop; [TypeError] and [ValueError] go on to the next key; any
    other exception leaves the loop and the [try] block. *)
Fixpoint scan_keys (keys : list string) (r : row) : outcome (option pyfloat) :=
  match keys with
  | [] => Returns None
  | key :: keys' =>
      match r !! key with
      | Some v =>
          if is_not_none v then
            match float_of_cell v with
            | Converted x => Returns (Some x)
            | Refused => scan_keys keys' r
            | Broke => Raises
            end
          else scan_keys keys' r
      | None => scan_keys keys' r
      end
  end.

Definition estimate_keys : list string :=
  ["EPS Estimate"; "epsestimate"; "Estimate"; "estimate"].
Definition actual_keys : list string :=
  ["Reported EPS"; "reportedEPS"; "epsactual"; "actual"].
Definition surprise_keys : list string :=
  ["Surprise(%)"; "surprise"; "surprise_percent"].

(** What [date_obj] can be bound to: a date, or the value a missing
    timestamp gives ([NaT.date()] is [NaT]). *)
Inductive pydate : Type :=
| ADate (d : date)
| NaT.

(** The index of a frame row: a timestamp (it has a [date()] method), a
    missing timestamp (it has one too), or anything else, seen through
    [str(idx)]. *)
Inductive index : Type :=
| Timestamp (d : date)
| Missing
| Label (s : string).

(** Lines 95-101; [None] is the [continue] of the handler. *)
Definition index_date (idx : index) : option pydate :=
  match idx with
  | Timestamp d => Some (ADate d)
  | Missing => Some NaT
  | Label s => option_map ADate (fromisoformat (substring 0 10 s))
  end.

(** What the code observes of the object bound to [df]: its [empty]
    attribute (false when it has none) and [iterrows()]. *)
Record frame : Type := mkFrame {
  empty : bool;
  iterrows : outcome (list (index * row))
}.

(** [yf.Ticker(sym)]: [get_earnings_dates(limit=...)], and the [calendar]
    attribute as read by [getattr(ticker, "calendar", None)]. *)
Record ticker : Type := mkTicker {
  get_earnings_dates : Z -> outcome (option frame);
  calendar : outcome (option frame)
}.

(** The environment of a call: successive readings of
    [dt.date.today()] and the [yf.Ticker] constructor. *)
Record World : Type := mkWorld {
  clock : nat -> date;
  Ticker : string -> outcome ticker
}.

Record PastEvent : Type := mkPastEvent {
  pe_date : string;
  eps_estimate : option pyfloat;
  eps_actual : option pyfloat;
  surprise_percent : option pyfloat
}.

Record Entry : Type := mkEntry {
  e_symbol : string;
  next_earnings_date : option string;
  next_earnings_estimate : option pyfloat;
  past_earnings : list PastEvent
}.

(** Lines 74-79. *)
Definition fresh_entry (sym : string) : Entry :=
  {| e_symbol := sym; next_earnings_date := None;
     next_earnings_estimate := None; past_earnings := [] |}.

(** *** The [try] block

    The statements of lines 81-172 work on [entry].  A statement completes
    with a value or raises; what it wrote to the entry before raising
    stays written, and the handler of line 174 does not undo it. *)
Definition block (A : Type) : Type := Entry -> Entry * outcome A.

Definition ret {A} (a : A) : block A := fun entry => (entry, Returns a).

Definition bind {A B} (m : block A) (k : A -> block B) : block B :=
  fun entry =>
    match m entry with
    | (entry', Returns a) => k a entry'
    | (entry', Raises) => (entry', Raises)
    end.

(** A call that reads but does not write the entry. *)
Definition call {A} (o : outcome A) : block A := fun entry => (entry, o).

(** An assignment to a field of the entry. *)
Definition write (f : Entry -> Entry) : block unit :=
  fun entry => (f entry, Returns tt).

Notation "'let*' x ':=' m 'in' k" := (bind m (fun x => k))
  (at level 10, x name, m at level 100, k at level 200).

Definition with_next_date (s : string) (entry : Entry) : Entry :=
  {| e_symbol := e_symbol entry;
     next_earnings_date := Some s;
     next_earnings_estimate := next_earnings_estimate entry;
     past_earnings := past_earnings entry |}.

Definition with_next_estimate (est : option pyfloat) (entry : Entry) : Entry :=
  {| e_symbol := e_symbol entry;
     next_earnings_date := next_earnings_date entry;
     next_earnings_estimate := est;
     past_earnings := past_earnings entry |}.

Definition with_past_event (ev : PastEvent) (entry : Entry) : Entry :=
  {| e_symbol := e_symbol entry;
     next_earnings_date := next_earnings_date entry;
     next_earnings_estimate := next_earnings_estimate entry;
     past_earnings := past_earnings entry ++ [ev] |}.

(** Lines 93-103. *)
Fixpoint collect_rows (raw : list (index * row)) : list (pydate * row) :=
  match raw with
  | [] => []
  | (idx, r) :: raw' =>
      match index_date idx with
      | Some date_obj => (date_obj, r) :: collect_rows raw'
      | None => collect_rows raw'
      end
  end.

(** Lines 111-114 need every [date_obj] to be a date: ordering [NaT]
    against a date raises [TypeError], and line 113 compares every
    [date_obj] with [today].  So with one [NaT] among the rows the sort or
    line 113 raises, before anything is written to the entry. *)
Fixpoint compared_rows (rows : list (pydate * row))
  : outcome (list (date * row)) :=
  match rows with
  | [] => Returns []
  | (ADate d, r) :: rest =>
      match compared_rows rest with
      | Returns l => Returns ((d, r) :: l)
      | Raises => Raises
      end
  | (NaT, _) :: _ => Raises
  end.

(** Lines 117-130: the date is written on line 119, before the key loop;
    the estimate on line 130, after it. *)
Definition set_next (future_rows : list (date * row)) : block unit :=
  match future_rows with
  | [] => ret tt
  | (next_date, next_row) :: _ =>
      let* done := write (with_next_date (isoformat next_date)) in
      let* est := call (scan_keys estimate_keys next_row) in
      write (with_next_estimate est)
  end.

(** Lines 137-172, one iteration up to the value that is appended: the
    three key loops run one after the other. *)
Definition past_event (p : date * row) : outcome PastEvent :=
  let '(date_obj, r) := p in
  match scan_keys estimate_keys r with
  | Raises => Raises
  | Returns eps_estimate =>
      match scan_keys actual_keys r with
      | Raises => Raises
      | Returns eps_actual =>
          match scan_keys surprise_keys r with
          | Raises => Raises
          | Returns surprise_pct =>
              Returns {| pe_date := isoformat date_obj;
                         eps_estimate := eps_estimate;
                         eps_actual := eps_actual;
                         surprise_percent := surprise_pct |}
          end
      end
  end.

(** Lines 136-172: the loop appends one event per row. *)
Fixpoint past_loop (selected : list (date * row)) : block unit :=
  match selected with
  | [] => ret tt
  | p :: rest =>
      let* ev := call (past_event p) in
      let* done := write (with_past_event ev) in
      past_loop rest
  end.

(** Lines 133-172. *)
Definition set_past (num : Z) (past_rows : list (date * row)) : block unit :=
  let max_past := Z.max (num - 1) 0 in
  if (0 <? max_past)%Z && negb (null past_rows) then
    let past_rows_sorted := sort_by geb past_rows in
    past_loop (take (Z.to_nat max_past) past_rows_sorted)
  else ret tt.

(** Lines 82-86: the frame for one ticker, with the fallback to
    [calendar] when [get_earnings_dates] raises. *)
Definition fetch_frame (tk : ticker) (num : Z) : outcome (option frame) :=
  match get_earnings_dates tk (Z.max (num + 4) 8) with
  | Returns df => Returns df
  | Raises => calendar tk
  end.

(** Lines 109-172 on the collected rows. *)
Definition fill_entry (today : date) (num : Z) (rows : list (pydate * row))
  : block unit :=
  let* rows := call (compared_rows rows) in
  let rows := sort_by leb rows in
  let future_rows := List.filter (fun p => geb (fst p) today) rows in
  let past_rows := List.filter (fun p => ltb (fst p) today) rows in
  let* done := set_next future_rows in
  set_past num past_rows.

(** Lines 82-172, the [try] block. *)
Definition try_block (w : World) (today : date) (num : Z) (sym : string)
  : block unit :=
  let* tk := call (Ticker w sym) in
  let* df := call (fetch_frame tk num) in
  match df with
  | None => ret tt
  | Some df =>
      if empty df then ret tt
      else
        let* raw := call (iterrows df) in
        match collect_rows raw with
        | [] => ret tt
        | rows => fill_entry today num rows
        end
  end.

(** The body of the [for sym in normalized_symbols] loop, lines 74-177:
    the entry that is appended to [results].  Every way out of the [try]
    block (the two [continue]s, the handler of line 174 and the normal
    end) appends the entry exactly once, in the state it then has. *)
Definition symbol_entry (w : World) (today : date) (num : Z) (sym : string)
  : Entry :=
  fst (try_block w today num sym (fresh_entry sym)).

(** The [symbols] argument: one string or a list; an element of the list
    may be [None] (the loop reads it as [(sym or "")]). *)
Inductive symbols_arg : Type :=
| OneSymbol (s : string)
| ManySymbols (l : list (option string)).

(** Lines 64-69. *)
Fixpoint normalize_symbols (symbol_list : list (option string))
  : list string :=
  match symbol_list with
  | [] => []
  | sym :: rest =>
      let sym := strip (default EmptyString sym) in
      if String.eqb sym EmptyString then normalize_symbols rest
      else upper sym :: normalize_symbols rest
  end.

(** Lines 71-177: the loop over the normalized symbols, appending to
    [results]. *)
Fixpoint results_loop (w : World) (today : date) (num : Z)
    (syms : list string) (results : list Entry) : list Entry :=
  match syms with
  | [] => results
  | sym :: rest =>
      results_loop w today num rest
        (results ++ [symbol_entry w today num sym])
  end.

(** [get_earnings_calendar]; [t] counts the readings of the clock made
    before the call, the second component those made after it. *)
Definition get_earnings_calendar (w : World) (t : nat)
    (symbols : symbols_arg) (num : Z) : list Entry * nat :=
  let num := if (num <=? 0)%Z then 1%Z else num in
  let today := clock w t in
  let symbol_list :=
    match symbols with
    | OneSymbol s => [Some s]
    | ManySymbols l => l
    end in
  let normalized_symbols := normalize_symbols symbol_list in
  (results_loop w today num normalized_symbols [], S t).

End WithFloat.

Arguments Converted {pyfloat} x.
Arguments Refused {pyfloat}.
Arguments Broke {pyfloat}.

End Earnings.

Import Earnings.

(** ** Reference definitions for the statements *)

Module Spec.

Section WithFloat.

Variable pyfloat : Type.
Variable float_of_str : string -> option pyfloat.
Variable fromisoformat : string -> option date.

(** The value a field name contributes: the field is present, not
    [None], and [float] accepts it. *)
Definition usable (r : row pyfloat) (key : string) : option pyfloat :=
  match r !! key with
  | Some v =>
      if is_not_none pyfloat v then
        match float_of_cell pyfloat float_of_str v with
        | Converted x => Some x
        | _ => None
        end
      else None
  | None => None
  end.

(** The field is present, not [None], and [float] raises on it something
    else than [TypeError] or [ValueError]. *)
Definition breaks (r : row pyfloat) (key : string) : bool :=
  match r !! key with
  | Some v =>
      is_not_none pyfloat v
      && match float_of_cell pyfloat float_of_str v with
         | Broke => true
         | _ => false
         end
  | None => false
  end.

(** First candidate, in list order, that contributes a value. *)
Definition first_usable (keys : list string) (r : row pyfloat)
  : option pyfloat :=
  head (omap (usable r) keys).

(** No candidate field of the row breaks a key loop. *)
Definition sound_row (r : row pyfloat) : bool :=
  forallb (fun key => negb (breaks r key))
    (estimate_keys ++ actual_keys ++ surprise_keys).

(** The past event of a row when no key loop breaks. *)
Definition event_of (p : date * row pyfloat) : PastEvent pyfloat :=
  {| pe_date := isoformat (fst p);
     eps_estimate := first_usable estimate_keys (snd p);
     eps_actual := first_usable actual_keys (snd p);
     surprise_percent := first_usable surprise_keys (snd p) |}.

(** Trimmed, non-empty, upper-cased symbols, in input order. *)
Definition normalized (symbols : symbols_arg) : list string :=
  let l := match symbols with
           | OneSymbol s => [Some s]
           | ManySymbols l => l
           end in
  map upper
    (List.filter (fun s => negb (String.eqb s EmptyString))
       (map (fun o => strip (default EmptyString o)) l)).

(** What was obtained as the frame gives nothing to work on: reading it
    raised, or it is [None], empty, cannot be iterated, or has no row with
    a date. *)
Inductive unusable : outcome (option (frame pyfloat)) -> Prop :=
| un_raises : unusable Raises
| un_none : unusable (Returns None)
| un_empty df : empty pyfloat df = true -> unusable (Returns (Some df))
| un_iter df :
    iterrows pyfloat df = Raises -> unusable (Returns (Some df))
| un_norows df raw :
    iterrows pyfloat df = Returns raw ->
    collect_rows pyfloat fromisoformat raw = [] ->
    unusable (Returns (Some df)).

(** The events the loop of lines 136-172 appends: one per row, up to the
    first row on which a key loop breaks. *)
Fixpoint events_before_break (selected : list (date * row pyfloat))
  : list (PastEvent pyfloat) :=
  match selected with
  | [] => []
  | p :: rest =>
      match past_event pyfloat float_of_str p with
      | Returns ev => ev :: events_before_break rest
      | Raises => []
      end
  end.

(** The next event of a list of coming rows: its date, and what the key
    loop of its row gives. *)
Definition next_date_of (future_rows : list (date * row pyfloat))
  : option string :=
  option_map (fun p => isoformat (fst p)) (head future_rows).

Definition next_scan_of (future_rows : list (date * row pyfloat))
  : outcome (option pyfloat) :=
  match head future_rows with
  | Some p => scan_keys pyfloat float_of_str estimate_keys (snd p)
  | None => Returns None
  end.

(** The effective [num] of line 53. *)
Definition effective_num (num : Z) : Z :=
  if (num <=? 0)%Z then 1%Z else num.

(** Dates of a list of rows, and the two orders on them. *)
Definition ascending {R} (l : list (date * R)) : Prop :=
  StronglySorted (fun a b => leb (fst a) (fst b) = true) l.
Definition descending {R} (l : list (date * R)) : Prop :=
  StronglySorted (fun a b => geb (fst a) (fst b) = true) l.

Variable str_of_float : pyfloat -> string.

Definition known_commands : list string :=
  ["list"; "add"; "remove"; "update"].

(** Inputs that [chat] turns down without touching the store, with the
    reply each one gets. *)
Inductive rejected (st : Dict.t (Stock pyfloat))
  : list string -> string -> Prop :=
| rej_add_price cmd s name_toks price_tok :
    lower cmd = "add" -> name_toks <> [] ->
    float_of_str price_tok = None ->
    rejected st (cmd :: s :: name_toks ++ [price_tok]) add_parse_error
| rej_update_price cmd s price_tok :
    lower cmd = "update" -> Dict.mem (upper s) st = true ->
    float_of_str price_tok = None ->
    rejected st [cmd; s; price_tok] update_parse_error
| rej_remove_absent cmd s :
    lower cmd = "remove" -> Dict.mem (upper s) st = false ->
    rejected st [cmd; s] (not_in_list (upper s))
| rej_update_absent cmd s price_tok :
    lower cmd = "update" -> Dict.mem (upper s) st = false ->
    rejected st [cmd; s; price_tok] (not_in_list (upper s)).

(** Token lists that are no command: an unknown first word, or a known
    one with the wrong number of tokens. *)
Inductive unrecognized : list string -> Prop :=
| unrec_word p0 rest :
    ~ In (lower p0) known_commands -> unrecognized (p0 :: rest)
| unrec_list p0 rest :
    lower p0 = "list" -> rest <> [] -> unrecognized (p0 :: rest)
| unrec_add p0 rest :
    lower p0 = "add" -> length (p0 :: rest) < 4 -> unrecognized (p0 :: rest)
| unrec_remove p0 rest :
    lower p0 = "remove" -> length (p0 :: rest) <> 2 ->
    unrecognized (p0 :: rest)
| unrec_update p0 rest :
    lower p0 = "update" -> length (p0 :: rest) <> 3 ->
    unrecognized (p0 :: rest).

End WithFloat.

End Spec.

Import Spec.

(** ** Concrete data for the examples *)

Module Demo.

(** A float is written as its decimal literal: digits with at most one
    point. *)
Definition pyfloat : Type := string.

Definition is_digit (c : ascii) : bool :=
  let n := nat_of_ascii c in ((48 <=? n)%nat && (n <=? 57)%nat).

Fixpoint literal_ok (seen_digit seen_point : bool) (s : string) : bool :=
  match s with
  | EmptyString => seen_digit
  | String c s' =>
      if is_digit c then literal_ok true seen_point s'
      else if Ascii.eqb c "."%char && negb seen_point
           then literal_ok seen_digit true s'
           else false
  end.

Definition float_of_str (s : string) : option pyfloat :=
  if literal_ok false false s then Some s else None.

Definition str_of_float (x : pyfloat) : string := x.

Definition digit_val (c : ascii) : Z := Z.of_nat (nat_of_ascii c - 48).

(** YYYY-MM-DD with a month in 1..12 and a day in 1..31. *)
Definition fromisoformat (s : string) : option date :=
  match list_ascii_of_string s with
  | [y1; y2; y3; y4; h1; m1; m2; h2; d1; d2] =>
      let y := (((digit_val y1 * 10 + digit_val y2) * 10 + digit_val y3) * 10
                + digit_val y4)%Z in
      let m := (digit_val m1 * 10 + digit_val m2)%Z in
      let d := (digit_val d1 * 10 + digit_val d2)%Z in
      if forallb is_digit [y1; y2; y3; y4; m1; m2; d1; d2]
         && Ascii.eqb h1 "-"%char && Ascii.eqb h2 "-"%char
         && (1 <=? m)%Z && (m <=? 12)%Z && (1 <=? d)%Z && (d <=? 31)%Z
      then Some (mkDate y m d) else None
  | _ => None
  end.

Definition apple : Stock pyfloat :=
  {| symbol := "AAPL"; name := "Apple"; price := "190.0";
     notes := Some "core holding" |}.

Definition msft : Stock pyfloat :=
  {| symbol := "MSFT"; name := "Microsoft"; price := "410.5";
     notes := None |}.

Definition store : Dict.t (Stock pyfloat) :=
  [("AAPL", apple); ("MSFT", msft)].

Definition jan27 : row pyfloat :=
  <["EPS Estimate" := VFloat pyfloat "2.66"]>
    (<["epsestimate" := VFloat pyfloat "9.99"]>
       (<["Reported EPS" := VNone pyfloat]> ∅)).

Definition oct26 : row pyfloat :=
  <["EPS Estimate" := VStr pyfloat "n/a"]>
    (<["estimate" := VStr pyfloat "1.60"]>
       (<["Reported EPS" := VFloat pyfloat "1.64"]>
          (<["Surprise(%)" := VFloat pyfloat "2.5"]> ∅))).

Definition jul26 : row pyfloat :=
  <["epsestimate" := VFloat pyfloat "1.35"]>
    (<["actual" := VFloat pyfloat "1.40"]>
       (<["surprise" := VObj pyfloat]> ∅)).

Definition apr26 : row pyfloat :=
  <["Estimate" := VFloat pyfloat "1.50"]> ∅.

Definition apple_frame : frame pyfloat :=
  {| empty := false;
     iterrows := Returns
       [ (Timestamp (mkDate 2026 7 30), jul26);
         (Timestamp (mkDate 2027 1 28), jan27);
         (Label "not a date", apr26);
         (Label "2026-04-30 16:00:00", apr26);
         (Timestamp (mkDate 2026 10 29), oct26) ] |}.

Definition calendar_frame : frame pyfloat :=
  {| empty := false;
     iterrows := Returns [ (Timestamp (mkDate 2027 2 10), jan27) ] |}.

Definition apple_ticker : ticker pyfloat :=
  {| get_earnings_dates := fun _ => Returns (Some apple_frame);
     calendar := Returns None |}.

Definition silent_ticker : ticker pyfloat :=
  {| get_earnings_dates := fun _ => Returns None;
     calendar := Returns None |}.

Definition fallback_ticker : ticker pyfloat :=
  {| get_earnings_dates := fun _ => Raises;
     calendar := Returns (Some calendar_frame) |}.

Definition broken_ticker : ticker pyfloat :=
  {| get_earnings_dates := fun _ => Raises;
     calendar := Raises |}.

(** AAPL answers the query, MSFT cannot be built, IBM answers [None],
    TSLA fails the query and has a calendar, anything else fails both.
    The clock moves on by one day at each reading. *)
Definition world : World pyfloat :=
  {| clock := fun n => mkDate 2026 11 (3 + Z.of_nat n);
     Ticker := fun sym =>
       if String.eqb sym "AAPL" then Returns apple_ticker
       else if String.eqb sym "MSFT" then Raises
       else if String.eqb sym "IBM" then Returns silent_ticker
       else if String.eqb sym "TSLA" then Returns fallback_ticker
       else Returns broken_ticker |}.

Definition chat := chat pyfloat float_of_str str_of_float.
Definition get_earnings_calendar :=
  get_earnings_calendar pyfloat float_of_str fromisoformat.

(** A stock posted with a lower-case symbol and a note. *)
Definition nvda : Stock pyfloat :=
  {| symbol := "nvda"; name := "Nvidia"; price := "140.2";
     notes := Some "watch" |}.

(** [apple_frame] without the row whose index is no date. *)
Definition apple_frame_dated : frame pyfloat :=
  {| empty := false;
     iterrows := Returns
       [ (Timestamp (mkDate 2026 7 30), jul26);
         (Timestamp (mkDate 2027 1 28), jan27);
         (Label "2026-04-30 16:00:00", apr26);
         (Timestamp (mkDate 2026 10 29), oct26) ] |}.

(** Two rows share the earliest coming date, 2027-01-28. *)
Definition tie_frame : frame pyfloat :=
  {| empty := false;
     iterrows := Returns
       [ (Timestamp (mkDate 2027 3 1), apr26);
         (Timestamp (mkDate 2026 7 30), jul26);
         (Timestamp (mkDate 2027 1 28), oct26);
         (Timestamp (mkDate 2027 1 28), jan27) ] |}.

Definition apple_ticker_dated : ticker pyfloat :=
  {| get_earnings_dates := fun _ => Returns (Some apple_frame_dated);
     calendar := Returns None |}.

Definition tie_ticker : ticker pyfloat :=
  {| get_earnings_dates := fun _ => Returns (Some tie_frame);
     calendar := Returns None |}.

Definition world_dated : World pyfloat :=
  {| clock := fun n => mkDate 2026 11 (3 + Z.of_nat n);
     Ticker := fun sym =>
       if String.eqb sym "AAPL" then Returns apple_ticker_dated
       else if String.eqb sym "NFLX" then Returns tie_ticker
       else Raises |}.

(** A value too large for a float: [float] raises [OverflowError] on the
    "EPS Estimate" of these two rows, while "epsestimate" is a float. *)
Definition huge_jul : row pyfloat :=
  <["EPS Estimate" := VHuge pyfloat]>
    (<["epsestimate" := VFloat pyfloat "1.35"]>
       (<["actual" := VFloat pyfloat "1.40"]> ∅)).

Definition huge_next : row pyfloat :=
  <["EPS Estimate" := VHuge pyfloat]>
    (<["epsestimate" := VFloat pyfloat "2.50"]> ∅).

(** The older of the two past rows holds the large value. *)
Definition huge_past_frame : frame pyfloat :=
  {| empty := false;
     iterrows := Returns
       [ (Timestamp (mkDate 2027 1 28), jan27);
         (Timestamp (mkDate 2026 10 29), oct26);
         (Timestamp (mkDate 2026 7 30), huge_jul) ] |}.

(** The coming row holds the large value. *)
Definition huge_next_frame : frame pyfloat :=
  {| empty := false;
     iterrows := Returns
       [ (Timestamp (mkDate 2027 1 28), huge_next);
         (Timestamp (mkDate 2026 10 29), oct26) ] |}.

(** One index is a missing timestamp. *)
Definition missing_frame : frame pyfloat :=
  {| empty := false;
     iterrows := Returns
       [ (Timestamp (mkDate 2027 1 28), jan27);
         (Missing, apr26);
         (Timestamp (mkDate 2026 10 29), oct26) ] |}.

Definition huge_past_ticker : ticker pyfloat :=
  {| get_earnings_dates := fun _ => Returns (Some huge_past_frame);
     calendar := Returns None |}.

Definition huge_next_ticker : ticker pyfloat :=
  {| get_earnings_dates := fun _ => Returns (Some huge_next_frame);
     calendar := Returns None |}.

Definition missing_ticker : ticker pyfloat :=
  {| get_earnings_dates := fun _ => Returns (Some missing_frame);
     calendar := Returns None |}.

Definition world_huge : World pyfloat :=
  {| clock := fun n => mkDate 2026 11 (3 + Z.of_nat n);
     Ticker := fun sym =>
       if String.eqb sym "ORCL" then Returns huge_past_ticker
       else if String.eqb sym "SAP" then Returns huge_next_ticker
       else if String.eqb sym "INTC" then Returns missing_ticker
       else Raises |}.

End Demo.

(** ** Facts about the string primitives and the dictionary *)

Lemma lower_char_inv (c d : ascii) :
  lower_char c = d -> c = d \/ c = ascii_of_nat (nat_of_ascii d - 32).
Proof.
  destruct c as [[] [] [] [] [] [] [] []]; intros <-; vm_compute; auto.
Qed.

(** A text that lower-cases to "list" is one token. *)
Lemma lower_list_single (s : string) : lower s = "list" -> split s = [s].
Proof.
  destruct s as [|c1 [|c2 [|c3 [|c4 [|c5 s]]]]]; simpl; intros H;
    try discriminate.
  injection H as H1 H2 H3 H4.
  apply lower_char_inv in H1, H2, H3, H4.
  destruct H1 as [-> | ->], H2 as [-> | ->], H3 as [-> | ->], H4 as [-> | ->];
    reflexivity.
Qed.

Lemma slice_2_m1_middle {A} (a b x : A) (l : list A) :
  slice_2_m1 (a :: b :: l ++ [x]) = l.
Proof.
  unfold slice_2_m1. cbn [length].
  rewrite length_app. cbn [length].
  replace (S (S (length l + 1)) - 1) with (S (S (length l))) by lia.
  cbn [take drop]. rewrite take_app_length. reflexivity.
Qed.

Lemma last_tok_end (a b x : string) (l : list string) :
  last_tok (a :: b :: l ++ [x]) = x.
Proof.
  unfold last_tok.
  change (a :: b :: l ++ [x]) with ((a :: b :: l) ++ [x]).
  apply last_last.
Qed.

Module DictFacts.

Section Facts.
Context {V : Type}.
Implicit Types (d : Dict.t V) (k : string) (v : V).

Lemma get_set_eq k v d : Dict.get k (Dict.set k v d) = Some v.
Proof.
  induction d as [|[k' v'] d IH]; simpl.
  - now rewrite String.eqb_refl.
  - destruct (String.eqb k k') eqn:E; simpl; rewrite ?String.eqb_refl, ?E;
      auto.
Qed.

Lemma get_set_ne k k' v d :
  k <> k' -> Dict.get k' (Dict.set k v d) = Dict.get k' d.
Proof.
  intros Hne. induction d as [|[k0 v0] d IH]; simpl.
  - destruct (String.eqb k' k) eqn:E; auto.
    apply String.eqb_eq in E. congruence.
  - destruct (String.eqb k k0) eqn:E; simpl.
    + apply String.eqb_eq in E. subst k0.
      destruct (String.eqb k' k) eqn:E'; auto.
      apply String.eqb_eq in E'. congruence.
    + now rewrite IH.
Qed.

(** Assigning to a key that is present keeps the order of the keys. *)
Lemma keys_set_present k v d :
  Dict.mem k d = true -> Dict.keys (Dict.set k v d) = Dict.keys d.
Proof.
  unfold Dict.mem, Dict.keys.
  induction d as [|[k0 v0] d IH]; simpl; [discriminate|].
  destruct (String.eqb k k0) eqn:E; simpl.
  - apply String.eqb_eq in E. now subst.
  - intros H. now rewrite IH.
Qed.

(** Assigning to a new key appends it. *)
Lemma set_absent k v d :
  Dict.mem k d = false -> Dict.set k v d = d ++ [(k, v)].
Proof.
  unfold Dict.mem.
  induction d as [|[k0 v0] d IH]; simpl; [reflexivity|].
  destruct (String.eqb k k0) eqn:E; [discriminate|].
  intros H. now rewrite IH.
Qed.

Lemma length_set_present k v d :
  Dict.mem k d = true -> Dict.len (Dict.set k v d) = Dict.len d.
Proof.
  intros H. unfold Dict.len.
  rewrite <- (length_map fst), <- (length_map fst d).
  now rewrite (keys_set_present k v d H : map fst _ = map fst _).
Qed.

Lemma set_keeps_unique k v d :
  NoDup (Dict.keys d) -> NoDup (Dict.keys (Dict.set k v d)).
Proof.
  intros Hnd. destruct (Dict.mem k d) eqn:E.
  - now rewrite keys_set_present.
  - rewrite set_absent by assumption.
    unfold Dict.keys. rewrite map_app. simpl.
    apply NoDup_app. repeat split; auto.
    + intros x Hx Hx'. apply list_elem_of_singleton in Hx'. subst x.
      unfold Dict.mem in E. clear Hnd.
      induction d as [|[k0 v0] d IH]; simpl in *.
      * inversion Hx.
      * destruct (String.eqb k k0) eqn:E0; [discriminate|].
        apply String.eqb_neq in E0.
        apply elem_of_cons in Hx as [Hx|Hx]; [congruence|auto].
    + apply NoDup_singleton.
Qed.
End Facts.

End DictFacts.

(** ** The chat interpreter *)

Section ChatFacts.

Variable pyfloat : Type.
Variable float_of_str : string -> option pyfloat.
Variable str_of_float : pyfloat -> string.

Abbreviation Stock := (Stock pyfloat).
Abbreviation chat := (chat pyfloat float_of_str str_of_float).
Abbreviation respond := (respond pyfloat).
Implicit Types (st : Dict.t Stock) (msg : string).

Lemma not_the_list_command msg p0 rest :
  split (strip msg) = p0 :: rest ->
  lower p0 <> "list" \/ rest <> [] ->
  String.eqb (lower (strip msg)) "list" = false.
Proof.
  intros Hs Hor. apply String.eqb_neq. intros Hl.
  pose proof (lower_list_single _ Hl) as Hone.
  rewrite Hs in Hone. injection Hone as -> ->.
  destruct Hor as [H|H]; congruence.
Qed.

Lemma four_tokens (a b x : string) (l : list string) :
  l <> [] -> (4 <=? length (a :: b :: l ++ [x]))%nat = true.
Proof.
  intros Hl. apply Nat.leb_le. destruct l; [congruence|].
  cbn [length app]. rewrite length_app. cbn [length]. lia.
Qed.

(** The successful [add], lines 93-103. *)
Lemma chat_add_ok msg st cmd s name_toks price_tok p :
  split (strip msg) = cmd :: s :: name_toks ++ [price_tok] ->
  lower cmd = "add" -> name_toks <> [] ->
  float_of_str price_tok = Some p ->
  chat msg st =
  respond ("Added " ++ upper s ++ " (" ++ join " " name_toks ++ ") at "
           ++ str_of_float p ++ ".")
    (Dict.set (upper s)
       {| symbol := upper s; name := join " " name_toks;
          price := p; notes := None |} st).
Proof.
  intros Hs Hcmd Hname Hp. unfold Backend.chat.
  rewrite (not_the_list_command msg _ _ Hs)
    by (right; destruct name_toks; discriminate).
  rewrite Hs, Hcmd, four_tokens by assumption.
  cbn [String.eqb Ascii.eqb Bool.eqb andb nth].
  rewrite last_tok_end, Hp, slice_2_m1_middle. reflexivity.
Qed.

(** The successful [update], lines 112-124. *)
Lemma chat_update_ok msg st cmd s price_tok old p :
  split (strip msg) = [cmd; s; price_tok] ->
  lower cmd = "update" ->
  Dict.get (upper s) st = Some old ->
  float_of_str price_tok = Some p ->
  chat msg st =
  respond ("Updated " ++ upper s ++ " to " ++ str_of_float p ++ ".")
    (Dict.set (upper s) (copy_update_price pyfloat old p) st).
Proof.
  intros Hs Hcmd Hold Hp. unfold Backend.chat.
  rewrite (not_the_list_command msg _ _ Hs) by (right; discriminate).
  rewrite Hs, Hcmd.
  cbn [String.eqb Ascii.eqb Bool.eqb andb nth length Nat.leb Nat.eqb].
  rewrite Hold, Hp. reflexivity.
Qed.

End ChatFacts.

Section ChatClaims.

Variable pyfloat : Type.
Variable float_of_str : string -> option pyfloat.
Variable str_of_float : pyfloat -> string.

Abbreviation Stock := (Stock pyfloat).
Abbreviation chat := (chat pyfloat float_of_str str_of_float).
Implicit Types (st : Dict.t Stock) (msg : string).

(** At least four tokens: a command word, a symbol, a non-empty name and a
    last token. *)
Lemma tokens_decompose (parts : list string) :
  4 <= length parts ->
  exists cmd s name_toks price_tok,
    parts = cmd :: s :: name_toks ++ [price_tok] /\ name_toks <> [].
Proof.
  intros Hlen.
  destruct parts as [|cmd [|s rest]]; cbn [length] in Hlen; try lia.
  destruct (decide (rest = [])) as [->|Hne]; [cbn [length] in Hlen; lia|].
  exists cmd, s, (removelast rest), (List.last rest EmptyString).
  split.
  - now rewrite <- app_removelast_last.
  - destruct rest as [|a [|b rest]]; cbn [length] in Hlen; try lia.
    discriminate.
Qed.

(** C2. For every store and every input [add SYM NAME... PRICE] with at
    least four tokens whose last token parses as a float, the store
    afterwards maps the upper-cased SYM to the record with that symbol,
    the name tokens joined by single spaces and the parsed price, whether
    or not SYM was there before; the other symbols keep their records and
    the reply carries the snapshot of the new store. *)
Theorem chat_add_upserts msg st cmd s name_toks price_tok p :
  split (strip msg) = cmd :: s :: name_toks ++ [price_tok] ->
  lower cmd = "add" ->
  name_toks <> [] ->
  float_of_str price_tok = Some p ->
  let st' := snd (chat msg st) in
  Dict.get (upper s) st'
  = Some {| symbol := upper s; name := join " " name_toks;
            price := p; notes := None |}
  /\ (forall k, k <> upper s -> Dict.get k st' = Dict.get k st)
  /\ stocks pyfloat (fst (chat msg st)) = Dict.values st'.
Proof.
  intros Hs Hcmd Hname Hp st'. subst st'.
  rewrite (chat_add_ok _ _ _ msg st cmd s name_toks price_tok p)
    by assumption.
  cbn [respond fst snd stocks]. repeat split.
  - apply DictFacts.get_set_eq.
  - intros k Hk. apply DictFacts.get_set_ne. congruence.
Qed.

(** C10. The record written by [add] has no notes, whatever record (with
    whatever notes) the symbol had before. *)
Theorem chat_add_drops_notes msg st cmd s name_toks price_tok p :
  split (strip msg) = cmd :: s :: name_toks ++ [price_tok] ->
  lower cmd = "add" ->
  name_toks <> [] ->
  float_of_str price_tok = Some p ->
  exists r,
    Dict.get (upper s) (snd (chat msg st)) = Some r /\ notes pyfloat r = None.
Proof.
  intros Hs Hcmd Hname Hp.
  rewrite (chat_add_ok _ _ _ msg st cmd s name_toks price_tok p)
    by assumption.
  cbn [respond snd]. eexists. split.
  - apply DictFacts.get_set_eq.
  - reflexivity.
Qed.

(** C6. For every store holding symbol S and every input [update S PRICE]
    of exactly three tokens with a price that parses, the record of S
    keeps its symbol, name and notes and gets the new price; every other
    symbol keeps its record, and the order of the store is unchanged. *)
Theorem chat_update_only_price msg st cmd s price_tok old p :
  split (strip msg) = [cmd; s; price_tok] ->
  lower cmd = "update" ->
  Dict.get (upper s) st = Some old ->
  float_of_str price_tok = Some p ->
  let st' := snd (chat msg st) in
  (exists r, Dict.get (upper s) st' = Some r
             /\ symbol pyfloat r = symbol pyfloat old
             /\ name pyfloat r = name pyfloat old
             /\ notes pyfloat r = notes pyfloat old
             /\ price pyfloat r = p)
  /\ (forall k, k <> upper s -> Dict.get k st' = Dict.get k st)
  /\ Dict.keys st' = Dict.keys st
  /\ stocks pyfloat (fst (chat msg st)) = Dict.values st'.
Proof.
  intros Hs Hcmd Hold Hp st'. subst st'.
  rewrite (chat_update_ok _ _ _ msg st cmd s price_tok old p) by assumption.
  cbn [respond fst snd stocks]. repeat split.
  - eexists. split; [apply DictFacts.get_set_eq|]. repeat split.
  - intros k Hk. apply DictFacts.get_set_ne. congruence.
  - apply DictFacts.keys_set_present. unfold Dict.mem. now rewrite Hold.
Qed.

(** C7, as the code has it. [chat] always returns.  A bad price on [add]
    (four tokens or more), a bad price on [update] of a symbol that is in
    the store, and [remove] or [update] of a symbol that is not in the
    store each leave the store as it was and answer with the matching
    message and the snapshot of the unchanged store.  For [update] the
    symbol is looked up before the price is parsed. *)
Theorem chat_rejects_without_mutation msg st r :
  rejected pyfloat float_of_str st (split (strip msg)) r ->
  chat msg st = ({| reply := r; stocks := Dict.values st |}, st).
Proof.
  intros Hrej. remember (split (strip msg)) as parts eqn:Hs.
  symmetry in Hs.
  destruct Hrej as [cmd s nt pt Hcmd Hnt Hp
                   |cmd s pt Hcmd Hmem Hp
                   |cmd s Hcmd Hmem
                   |cmd s pt Hcmd Hmem]; unfold Backend.chat.
  - rewrite (not_the_list_command msg _ _ Hs)
      by (right; destruct nt; discriminate).
    rewrite Hs, Hcmd, four_tokens by assumption.
    cbn [String.eqb Ascii.eqb Bool.eqb andb nth].
    now rewrite last_tok_end, Hp.
  - rewrite (not_the_list_command msg _ _ Hs) by (right; discriminate).
    rewrite Hs, Hcmd.
    cbn [String.eqb Ascii.eqb Bool.eqb andb nth length Nat.leb Nat.eqb].
    unfold Dict.mem in Hmem.
    destruct (Dict.get (upper s) st); [|discriminate].
    now rewrite Hp.
  - rewrite (not_the_list_command msg _ _ Hs) by (right; discriminate).
    rewrite Hs, Hcmd.
    cbn [String.eqb Ascii.eqb Bool.eqb andb nth length Nat.leb Nat.eqb].
    now rewrite Hmem.
  - rewrite (not_the_list_command msg _ _ Hs) by (right; discriminate).
    rewrite Hs, Hcmd.
    cbn [String.eqb Ascii.eqb Bool.eqb andb nth length Nat.leb Nat.eqb].
    unfold Dict.mem in Hmem.
    now destruct (Dict.get (upper s) st).
Qed.

(** C8. For every store and every input whose first token is no known
    command word, or is [add] with fewer than four tokens, [remove] with a
    number of tokens other than two, or [update] with a number other than
    three (or [list] followed by more tokens), the reply is the fixed help
    text, the store is not changed and the snapshot is that of the
    unchanged store. *)
Theorem chat_help_on_unrecognized msg st :
  unrecognized (split (strip msg)) ->
  chat msg st = ({| reply := help_text; stocks := Dict.values st |}, st).
Proof.
  intros Hun. remember (split (strip msg)) as parts eqn:Hs.
  symmetry in Hs.
  destruct Hun as [p0 rest Hw|p0 rest Hcmd Hrest|p0 rest Hcmd Hlen
                  |p0 rest Hcmd Hlen|p0 rest Hcmd Hlen];
    unfold Backend.chat.
  - assert (Hl : lower p0 <> "list") by (intros E; apply Hw; rewrite E; simpl; auto).
    assert (Ha : lower p0 <> "add") by (intros E; apply Hw; rewrite E; simpl; auto).
    assert (Hr : lower p0 <> "remove") by (intros E; apply Hw; rewrite E; simpl; auto).
    assert (Hu : lower p0 <> "update") by (intros E; apply Hw; rewrite E; simpl; auto).
    rewrite (not_the_list_command msg _ _ Hs) by (left; assumption).
    rewrite Hs.
    apply String.eqb_neq in Ha, Hr, Hu. rewrite Ha, Hr, Hu. reflexivity.
  - rewrite (not_the_list_command msg _ _ Hs) by (right; assumption).
    rewrite Hs, Hcmd. reflexivity.
  - rewrite (not_the_list_command msg _ _ Hs)
      by (left; rewrite Hcmd; discriminate).
    rewrite Hs, Hcmd.
    replace (4 <=? length (p0 :: rest))%nat with false
      by (symmetry; apply Nat.leb_gt; exact Hlen).
    reflexivity.
  - rewrite (not_the_list_command msg _ _ Hs)
      by (left; rewrite Hcmd; discriminate).
    rewrite Hs, Hcmd.
    replace (length (p0 :: rest) =? 2)%nat with false
      by (symmetry; apply Nat.eqb_neq; exact Hlen).
    reflexivity.
  - rewrite (not_the_list_command msg _ _ Hs)
      by (left; rewrite Hcmd; discriminate).
    rewrite Hs, Hcmd.
    replace (length (p0 :: rest) =? 3)%nat with false
      by (symmetry; apply Nat.eqb_neq; exact Hlen).
    reflexivity.
Qed.

(** C9. When the trimmed input is "list" in any letter case, the store is
    not changed, the reply gives the number of records and the snapshot
    lists all records in store order; a second [list] right after returns
    the same snapshot. *)
Theorem chat_list_reports msg msg' st :
  lower (strip msg) = "list" ->
  lower (strip msg') = "list" ->
  chat msg st
  = ({| reply := "You currently have " ++ str_of_nat (length st)
                 ++ " stock(s).";
        stocks := map snd st |}, st)
  /\ stocks pyfloat (fst (chat msg' (snd (chat msg st))))
     = stocks pyfloat (fst (chat msg st)).
Proof.
  intros H H'.
  assert (Hl : forall m s, lower (strip m) = "list" ->
             chat m s
             = ({| reply := "You currently have " ++ str_of_nat (length s)
                            ++ " stock(s).";
                   stocks := map snd s |}, s)).
  { intros m s0 Hm. unfold Backend.chat. rewrite Hm. reflexivity. }
  split; [now apply Hl|].
  rewrite (Hl msg st H). cbn [snd]. now rewrite (Hl msg' st H').
Qed.

End ChatClaims.

(** *** The chat claims on concrete inputs *)

Lemma chat_add_upserts_witness :
  let msg := "  Add aapl Apple   Inc 195.3 " in
  split (strip msg) = ["Add"; "aapl"; "Apple"; "Inc"; "195.3"]
  /\ Demo.float_of_str "195.3" = Some "195.3"
  /\ Dict.get "AAPL" Demo.store = Some Demo.apple
  /\ Dict.get "AAPL" (snd (Demo.chat msg Demo.store))
     = Some {| symbol := "AAPL"; name := "Apple Inc"; price := "195.3";
               notes := None |}
  /\ Dict.get "MSFT" (snd (Demo.chat msg Demo.store)) = Some Demo.msft.
Proof.
  intros msg.
  destruct (chat_add_upserts Demo.pyfloat Demo.float_of_str
              Demo.str_of_float msg Demo.store
              "Add" "aapl" ["Apple"; "Inc"] "195.3" "195.3")
    as (Hget & Hother & _); try reflexivity; try discriminate.
  split; [reflexivity|]. split; [reflexivity|]. split; [reflexivity|].
  split.
  - exact Hget.
  - unfold Demo.chat. rewrite (Hother "MSFT"); [reflexivity | discriminate].
Defined.

Lemma chat_add_drops_notes_witness :
  let msg := "add AAPL Apple Computer 201" in
  split (strip msg) = ["add"; "AAPL"; "Apple"; "Computer"; "201"]
  /\ Demo.float_of_str "201" = Some "201"
  /\ (exists old, Dict.get "AAPL" Demo.store = Some old
                  /\ notes Demo.pyfloat old = Some "core holding")
  /\ (exists r, Dict.get "AAPL" (snd (Demo.chat msg Demo.store)) = Some r
                /\ notes Demo.pyfloat r = None).
Proof.
  intros msg. split; [reflexivity|]. split; [reflexivity|]. split.
  - exists Demo.apple. split; reflexivity.
  - apply (chat_add_drops_notes Demo.pyfloat Demo.float_of_str
             Demo.str_of_float msg Demo.store
             "add" "AAPL" ["Apple"; "Computer"] "201" "201");
      try reflexivity; discriminate.
Defined.

Lemma chat_update_only_price_witness :
  let msg := "UPDATE aapl 200.0" in
  split (strip msg) = ["UPDATE"; "aapl"; "200.0"]
  /\ Demo.float_of_str "200.0" = Some "200.0"
  /\ Dict.get "AAPL" Demo.store = Some Demo.apple
  /\ (exists r, Dict.get "AAPL" (snd (Demo.chat msg Demo.store)) = Some r
                /\ symbol Demo.pyfloat r = "AAPL"
                /\ name Demo.pyfloat r = "Apple"
                /\ notes Demo.pyfloat r = Some "core holding"
                /\ price Demo.pyfloat r = "200.0")
  /\ Dict.keys (snd (Demo.chat msg Demo.store)) = ["AAPL"; "MSFT"].
Proof.
  intros msg.
  destruct (chat_update_only_price Demo.pyfloat Demo.float_of_str
              Demo.str_of_float msg Demo.store
              "UPDATE" "aapl" "200.0" Demo.apple "200.0")
    as (Hrec & _ & Hkeys & _); try reflexivity.
  split; [reflexivity|]. split; [reflexivity|]. split; [reflexivity|].
  split.
  - exact Hrec.
  - exact Hkeys.
Defined.

(** C7 as stated fails where its two cases meet: [update] of a symbol that
    is not in the store, with a price that does not parse, is answered
    with "not in your list", not with a parse error. *)
Lemma chat_update_absent_symbol_bad_price :
  split (strip "update AAPL abc") = ["update"; "AAPL"; "abc"]
  /\ Demo.float_of_str "abc" = None
  /\ Dict.get (upper "AAPL") ([] : Dict.t (Stock Demo.pyfloat)) = None
  /\ Demo.chat "update AAPL abc" []
     = ({| reply := "AAPL is not in your list."; stocks := [] |}, [])
  /\ reply Demo.pyfloat (fst (Demo.chat "update AAPL abc" []))
     <> update_parse_error
  /\ reply Demo.pyfloat (fst (Demo.chat "update AAPL abc" []))
     <> add_parse_error.
Proof.
  repeat split; try reflexivity; discriminate.
Qed.

Lemma chat_rejects_without_mutation_witness :
  rejected Demo.pyfloat Demo.float_of_str Demo.store
    (split (strip "update msft 4x0")) update_parse_error
  /\ Demo.chat "update msft 4x0" Demo.store
     = ({| reply := update_parse_error; stocks := [Demo.apple; Demo.msft] |},
        Demo.store)
  /\ Demo.chat "add GOOG Alphabet Inc twelve" Demo.store
     = ({| reply := add_parse_error; stocks := [Demo.apple; Demo.msft] |},
        Demo.store)
  /\ Demo.chat "remove goog" Demo.store
     = ({| reply := "GOOG is not in your list.";
           stocks := [Demo.apple; Demo.msft] |}, Demo.store)
  /\ Demo.chat "update goog 1.5" Demo.store
     = ({| reply := "GOOG is not in your list.";
           stocks := [Demo.apple; Demo.msft] |}, Demo.store).
Proof.
  assert (H1 : rejected Demo.pyfloat Demo.float_of_str Demo.store
                 (split (strip "update msft 4x0")) update_parse_error)
    by (apply (rej_update_price _ _ _ "update" "msft" "4x0"); reflexivity).
  split; [exact H1|]. split; [|split; [|split]].
  - exact (chat_rejects_without_mutation Demo.pyfloat Demo.float_of_str
             Demo.str_of_float _ _ _ H1).
  - apply (chat_rejects_without_mutation Demo.pyfloat Demo.float_of_str
             Demo.str_of_float "add GOOG Alphabet Inc twelve" Demo.store).
    apply (rej_add_price _ _ _ "add" "GOOG" ["Alphabet"; "Inc"] "twelve");
      try reflexivity; discriminate.
  - apply (chat_rejects_without_mutation Demo.pyfloat Demo.float_of_str
             Demo.str_of_float "remove goog" Demo.store).
    apply (rej_remove_absent _ _ _ "remove" "goog"); reflexivity.
  - apply (chat_rejects_without_mutation Demo.pyfloat Demo.float_of_str
             Demo.str_of_float "update goog 1.5" Demo.store).
    apply (rej_update_absent _ _ _ "update" "goog" "1.5"); reflexivity.
Defined.

Lemma chat_help_on_unrecognized_witness :
  unrecognized (split (strip "buy AAPL 10"))
  /\ Demo.chat "buy AAPL 10" Demo.store
     = ({| reply := help_text; stocks := [Demo.apple; Demo.msft] |},
        Demo.store)
  /\ Demo.chat "add AAPL 10" Demo.store
     = ({| reply := help_text; stocks := [Demo.apple; Demo.msft] |},
        Demo.store)
  /\ Demo.chat "remove" Demo.store
     = ({| reply := help_text; stocks := [Demo.apple; Demo.msft] |},
        Demo.store)
  /\ Demo.chat "update AAPL to 10" Demo.store
     = ({| reply := help_text; stocks := [Demo.apple; Demo.msft] |},
        Demo.store).
Proof.
  assert (H1 : unrecognized (split (strip "buy AAPL 10"))).
  { apply (unrec_word "buy" ["AAPL"; "10"]). simpl.
    intros [H|[H|[H|[H|[]]]]]; discriminate. }
  split; [exact H1|]. split; [|split; [|split]].
  - exact (chat_help_on_unrecognized Demo.pyfloat Demo.float_of_str
             Demo.str_of_float _ Demo.store H1).
  - apply (chat_help_on_unrecognized Demo.pyfloat Demo.float_of_str
             Demo.str_of_float "add AAPL 10" Demo.store).
    apply (unrec_add "add" ["AAPL"; "10"]); [reflexivity | simpl; lia].
  - apply (chat_help_on_unrecognized Demo.pyfloat Demo.float_of_str
             Demo.str_of_float "remove" Demo.store).
    apply (unrec_remove "remove" []); [reflexivity | simpl; lia].
  - apply (chat_help_on_unrecognized Demo.pyfloat Demo.float_of_str
             Demo.str_of_float "update AAPL to 10" Demo.store).
    apply (unrec_update "update" ["AAPL"; "to"; "10"]);
      [reflexivity | simpl; lia].
Defined.

Lemma chat_list_reports_witness :
  lower (strip "  LiSt ") = "list"
  /\ Demo.chat "  LiSt " Demo.store
     = ({| reply := "You currently have 2 stock(s).";
           stocks := [Demo.apple; Demo.msft] |}, Demo.store)
  /\ stocks Demo.pyfloat
       (fst (Demo.chat "list" (snd (Demo.chat "  LiSt " Demo.store))))
     = stocks Demo.pyfloat (fst (Demo.chat "  LiSt " Demo.store)).
Proof.
  split; [reflexivity|].
  apply (chat_list_reports Demo.pyfloat Demo.float_of_str Demo.str_of_float
           "  LiSt " "list" Demo.store); reflexivity.
Defined.

(** ** The order on dates and the stable sort *)

Module DateFacts.

Definition lt (a b : date) : Prop :=
  (year a < year b
   \/ year a = year b
      /\ (month a < month b \/ month a = month b /\ day a < day b))%Z.

Lemma ltb_lt (a b : date) : ltb a b = true <-> lt a b.
Proof.
  unfold ltb, lt.
  rewrite !orb_true_iff, !andb_true_iff, !Z.ltb_lt, !Z.eqb_eq, !orb_true_iff,
    !andb_true_iff, !Z.ltb_lt, !Z.eqb_eq.
  tauto.
Qed.

Lemma leb_le (a b : date) : leb a b = true <-> ~ lt b a.
Proof.
  unfold leb. rewrite negb_true_iff, <- ltb_lt.
  destruct (ltb b a); split; intros; congruence.
Qed.

Lemma leb_total (a b : date) : leb a b = true \/ leb b a = true.
Proof. rewrite !leb_le. unfold lt. lia. Qed.

Lemma leb_trans (a b c : date) :
  leb a b = true -> leb b c = true -> leb a c = true.
Proof. rewrite !leb_le. unfold lt. lia. Qed.

Lemma leb_refl (a : date) : leb a a = true.
Proof. rewrite leb_le. unfold lt. lia. Qed.

Lemma geb_total (a b : date) : geb a b = true \/ geb b a = true.
Proof. unfold geb. apply leb_total. Qed.

Lemma geb_trans (a b c : date) :
  geb a b = true -> geb b c = true -> geb a c = true.
Proof. unfold geb. intros H1 H2. exact (leb_trans _ _ _ H2 H1). Qed.

(** Every date is either before [today] or not, never both. *)
Lemma ltb_geb (d today : date) : ltb d today = negb (geb d today).
Proof. unfold geb, leb. now rewrite negb_involutive. Qed.

End DateFacts.

Section SortFacts.

Context {R : Type}.
Variable le : date -> date -> bool.
Hypothesis le_total : forall a b, le a b = true \/ le b a = true.
Hypothesis le_trans :
  forall a b c, le a b = true -> le b c = true -> le a c = true.

Abbreviation key_le := (fun a b : date * R => le (fst a) (fst b) = true).

Lemma insert_by_perm (x : date * R) (l : list (date * R)) :
  Permutation (insert_by le x l) (x :: l).
Proof.
  induction l as [|y l IH]; simpl; [reflexivity|].
  destruct (le (fst x) (fst y)); [reflexivity|].
  rewrite IH. apply perm_swap.
Qed.

Lemma sort_by_perm (l : list (date * R)) : Permutation (sort_by le l) l.
Proof.
  induction l as [|x l IH]; simpl; [reflexivity|].
  rewrite insert_by_perm. now constructor.
Qed.

Lemma insert_by_sorted (x : date * R) (l : list (date * R)) :
  StronglySorted key_le l -> StronglySorted key_le (insert_by le x l).
Proof.
  induction 1 as [|y l Hs IH Hy]; simpl.
  - repeat constructor.
  - destruct (le (fst x) (fst y)) eqn:E.
    + constructor; [now constructor|].
      constructor; [exact E|].
      eapply Forall_impl; [exact Hy|].
      intros z Hz. simpl in *. eauto.
    + constructor; [exact IH|].
      rewrite (insert_by_perm x l). constructor; [|exact Hy].
      destruct (le_total (fst x) (fst y)); congruence.
Qed.

Lemma sort_by_sorted (l : list (date * R)) :
  StronglySorted key_le (sort_by le l).
Proof.
  induction l as [|x l IH]; simpl; [constructor|].
  now apply insert_by_sorted.
Qed.

(** Stability: rows with the same date keep their relative order.  [sel]
    selects dates that are pairwise equivalent for [le]; selecting them
    before or after the sort gives the same list. *)
Lemma insert_by_stable (sel : date -> bool) (x : date * R)
    (l : list (date * R)) :
  (forall a b, sel a = true -> sel b = true -> le a b = true) ->
  List.filter (fun p => sel (fst p)) (insert_by le x l)
  = List.filter (fun p => sel (fst p)) (x :: l).
Proof.
  intros Hsel. induction l as [|y l IH]; [reflexivity|].
  cbn [insert_by]. destruct (le (fst x) (fst y)) eqn:E; [reflexivity|].
  cbn [List.filter] in *. rewrite IH.
  destruct (sel (fst x)) eqn:Ex, (sel (fst y)) eqn:Ey; try reflexivity.
  rewrite (Hsel _ _ Ex Ey) in E. discriminate.
Qed.

Lemma sort_by_stable (sel : date -> bool) (l : list (date * R)) :
  (forall a b, sel a = true -> sel b = true -> le a b = true) ->
  List.filter (fun p => sel (fst p)) (sort_by le l)
  = List.filter (fun p => sel (fst p)) l.
Proof.
  intros Hsel. induction l as [|x l IH]; [reflexivity|].
  cbn [sort_by]. rewrite insert_by_stable by assumption.
  cbn [List.filter]. now rewrite IH.
Qed.

End SortFacts.

(** ** The earnings normalizer *)

Lemma lookup_map {A B} (f : A -> B) (l : list A) (i : nat) :
  map f l !! i = option_map f (l !! i).
Proof.
  revert i. induction l as [|x l IH]; intros [|i]; cbn; auto.
Qed.

Lemma filter_sorted {A} (R : A -> A -> Prop) (f : A -> bool) (l : list A) :
  StronglySorted R l -> StronglySorted R (List.filter f l).
Proof.
  induction 1 as [|x l Hs IH Hx]; cbn; [constructor|].
  destruct (f x); [|exact IH].
  constructor; [exact IH|].
  apply List.Forall_forall. intros y Hy. apply filter_In in Hy as [Hy _].
  rewrite List.Forall_forall in Hx. auto.
Qed.

Lemma in_take {A} (k : nat) (l : list A) (x : A) :
  In x (take k l) -> In x l.
Proof.
  intros H. rewrite <- (take_drop k l). apply in_or_app. now left.
Qed.

Lemma max_past_effective (num : Z) :
  Z.max (effective_num num - 1) 0 = Z.max (num - 1) 0.
Proof. unfold effective_num. destruct (Z.leb_spec num 0); lia. Qed.

Section EarningsFacts.

Variable pyfloat : Type.
Variable float_of_str : string -> option pyfloat.
Variable fromisoformat : string -> option date.

Abbreviation row := (row pyfloat).
Abbreviation Entry := (Entry pyfloat).
Abbreviation World := (World pyfloat).
Abbreviation PastEvent := (PastEvent pyfloat).
Abbreviation scan_keys := (scan_keys pyfloat float_of_str).
Abbreviation first_usable := (first_usable pyfloat float_of_str).
Abbreviation usable := (usable pyfloat float_of_str).
Abbreviation breaks := (breaks pyfloat float_of_str).
Abbreviation sound_row := (sound_row pyfloat float_of_str).
Abbreviation event_of := (event_of pyfloat float_of_str).
Abbreviation events_before_break := (events_before_break pyfloat float_of_str).
Abbreviation past_event := (past_event pyfloat float_of_str).
Abbreviation past_loop := (past_loop pyfloat float_of_str).
Abbreviation set_next := (set_next pyfloat float_of_str).
Abbreviation set_past := (set_past pyfloat float_of_str).
Abbreviation fill_entry := (fill_entry pyfloat float_of_str).
Abbreviation compared_rows := (compared_rows pyfloat).
Abbreviation collect_rows := (collect_rows pyfloat fromisoformat).
Abbreviation try_block := (try_block pyfloat float_of_str fromisoformat).
Abbreviation symbol_entry := (symbol_entry pyfloat float_of_str fromisoformat).
Abbreviation get_earnings_calendar :=
  (get_earnings_calendar pyfloat float_of_str fromisoformat).
Abbreviation fresh_entry := (fresh_entry pyfloat).
Abbreviation fetch_frame := (fetch_frame pyfloat).
Abbreviation unusable := (unusable pyfloat fromisoformat).
Abbreviation next_scan_of := (next_scan_of pyfloat float_of_str).
Abbreviation next_date_of := (next_date_of pyfloat).

(** *** The key loops *)

(** One turn of a key loop: the key is passed over, gives the value, or
    breaks the loop. *)
Lemma scan_keys_step (key : string) (keys : list string) (r : row) :
  (scan_keys (key :: keys) r = scan_keys keys r
   /\ usable r key = None /\ breaks r key = false)
  \/ (exists x, scan_keys (key :: keys) r = Returns (Some x)
                /\ usable r key = Some x /\ breaks r key = false)
  \/ (scan_keys (key :: keys) r = Raises
      /\ usable r key = None /\ breaks r key = true).
Proof.
  cbn [Earnings.scan_keys]. unfold Spec.usable, Spec.breaks.
  destruct (r !! key) as [v|]; [|now left].
  destruct (is_not_none pyfloat v); [|now left].
  destruct (float_of_cell pyfloat float_of_str v) as [x| |].
  - right; left. now exists x.
  - now left.
  - now right; right.
Qed.

(** Whatever a key loop returns is the first usable value. *)
Lemma scan_keys_returns (keys : list string) (r : row) x :
  scan_keys keys r = Returns x -> x = first_usable keys r.
Proof.
  unfold Spec.first_usable.
  induction keys as [|key keys IH].
  - now intros [= <-].
  - cbn [omap list_omap].
    destruct (scan_keys_step key keys r)
      as [(-> & -> & _)|[(y & -> & -> & _)|(-> & _ & _)]].
    + exact IH.
    + now intros [= <-].
    + discriminate.
Qed.

(** A key loop whose candidates do not break returns. *)
Lemma scan_keys_sound (keys : list string) (r : row) :
  (forall k, In k keys -> breaks r k = false) ->
  scan_keys keys r = Returns (first_usable keys r).
Proof.
  intros Hsound.
  destruct (scan_keys keys r) as [x|] eqn:E.
  - f_equal. now apply scan_keys_returns.
  - exfalso. induction keys as [|key keys IH]; [discriminate|].
    destruct (scan_keys_step key keys r)
      as [(Hs & _ & _)|[(y & Hs & _ & _)|(_ & _ & Hb)]].
    + rewrite Hs in E. apply IH; [|exact E].
      intros k Hin. apply Hsound. now right.
    + congruence.
    + rewrite (Hsound key (or_introl eq_refl)) in Hb. discriminate.
Qed.

(** A key loop raises exactly when a candidate that breaks comes before
    every usable one. *)
Lemma scan_keys_raises (keys : list string) (r : row) :
  scan_keys keys r = Raises <->
  exists pre k post,
    keys = pre ++ k :: post /\ breaks r k = true
    /\ forall k', In k' pre -> usable r k' = None.
Proof.
  induction keys as [|key keys IH].
  - split; [discriminate|]. intros (pre & k & post & H & _).
    destruct pre; discriminate.
  - destruct (scan_keys_step key keys r)
      as [(-> & Hu & Hb)|[(y & -> & Hu & Hb)|(-> & Hu & Hb)]].
    + rewrite IH. split.
      * intros (pre & k & post & -> & Hk & Hpre).
        exists (key :: pre), k, post. repeat split; auto.
        intros k' [<-|Hin]; auto.
      * intros (pre & k & post & Heq & Hk & Hpre).
        destruct pre as [|k0 pre]; cbn [app] in Heq; injection Heq as -> ->.
        -- congruence.
        -- exists pre, k, post. repeat split; auto.
           intros k' Hin. apply Hpre. now right.
    + split; [discriminate|].
      intros (pre & k & post & Heq & Hk & Hpre).
      destruct pre as [|k0 pre]; cbn [app] in Heq; injection Heq as <- ->.
      * congruence.
      * specialize (Hpre key (or_introl eq_refl)). congruence.
    + split; [intros _|reflexivity].
      exists [], key, keys. repeat split; auto. intros k' [].
Qed.

(** What "first" means: a position in the candidate list with a usable
    value and none before it. *)
Lemma first_usable_Some (keys : list string) (r : row) (x : pyfloat) :
  first_usable keys r = Some x <->
  exists i k, keys !! i = Some k /\ usable r k = Some x
              /\ forall j k', j < i -> keys !! j = Some k' ->
                              usable r k' = None.
Proof.
  unfold Spec.first_usable.
  induction keys as [|key keys IH]; cbn [omap list_omap].
  - split; [discriminate|]. intros (i & k & Hk & _). destruct i; discriminate.
  - destruct (usable r key) as [y|] eqn:E; cbn [head].
    + split.
      * intros [= ->]. exists 0, key. repeat split; auto. intros; lia.
      * intros (i & k & Hk & Hx & Hbefore). destruct i as [|i].
        -- injection Hk as ->. congruence.
        -- specialize (Hbefore 0 key ltac:(lia) eq_refl). congruence.
    + rewrite IH. split.
      * intros (i & k & Hk & Hx & Hbefore). exists (S i), k.
        repeat split; auto. intros [|j] k' Hj Hk'.
        -- injection Hk' as <-. exact E.
        -- apply (Hbefore j); [lia|exact Hk'].
      * intros (i & k & Hk & Hx & Hbefore). destruct i as [|i].
        -- injection Hk as ->. congruence.
        -- exists i, k. repeat split; auto. intros j k' Hj Hk'.
           apply (Hbefore (S j)); [lia|exact Hk'].
Qed.

Lemma first_usable_None (keys : list string) (r : row) :
  first_usable keys r = None <-> forall k, In k keys -> usable r k = None.
Proof.
  unfold Spec.first_usable.
  induction keys as [|key keys IH]; cbn [omap list_omap].
  - split; [intros _ k []|reflexivity].
  - destruct (usable r key) as [y|] eqn:E; cbn [head].
    + split; [discriminate|]. intros H. rewrite (H key) in E; [discriminate|].
      now left.
    + rewrite IH. split.
      * intros H k [<-|Hk]; auto.
      * intros H k Hk. apply H. now right.
Qed.

(** A field only looks at its own candidate names. *)
Lemma first_usable_ext (keys : list string) (r r' : row) :
  (forall k, In k keys -> r !! k = r' !! k) ->
  first_usable keys r = first_usable keys r'.
Proof.
  unfold Spec.first_usable. intros Hagree.
  induction keys as [|key keys IH]; [reflexivity|].
  cbn [omap list_omap].
  assert (Hkey : usable r key = usable r' key)
    by (unfold Spec.usable; rewrite (Hagree key) by (now left);
        reflexivity).
  rewrite Hkey. destruct (usable r' key); [reflexivity|].
  apply IH. intros k Hk. apply Hagree. now right.
Qed.

Lemma sound_row_keys (r : row) :
  sound_row r = true ->
  (forall k, In k estimate_keys -> breaks r k = false)
  /\ (forall k, In k actual_keys -> breaks r k = false)
  /\ (forall k, In k surprise_keys -> breaks r k = false).
Proof.
  unfold Spec.sound_row. rewrite forallb_forall. intros H.
  repeat split; intros k Hk; apply negb_true_iff, H;
    rewrite !in_app_iff; auto.
Qed.

(** The event a row gives when its key loops do not break. *)
Lemma past_event_sound (p : date * row) :
  sound_row (snd p) = true -> past_event p = Returns (event_of p).
Proof.
  destruct p as [d r]. cbn [snd]. intros Hs.
  destruct (sound_row_keys r Hs) as (He & Ha & Hp).
  unfold Earnings.past_event, Spec.event_of.
  now rewrite (scan_keys_sound _ r He), (scan_keys_sound _ r Ha),
    (scan_keys_sound _ r Hp).
Qed.


Lemma events_before_break_sound (l : list (date * row)) :
  Forall (fun p => sound_row (snd p) = true) l ->
  events_before_break l = map event_of l.
Proof.
  induction 1 as [|p l Hp Hl IH]; [reflexivity|].
  cbn [Spec.events_before_break map].
  now rewrite (past_event_sound p Hp), IH.
Qed.

Lemma events_before_break_length (l : list (date * row)) :
  length (events_before_break l) <= length l.
Proof.
  induction l as [|p l IH]; [reflexivity|].
  cbn [Spec.events_before_break]. destruct (past_event p); cbn [length]; lia.
Qed.

Lemma events_before_break_take (k : nat) (l : list (date * row)) :
  events_before_break (take k l) = take k (events_before_break l).
Proof.
  revert l. induction k as [|k IH]; intros l.
  - reflexivity.
  - destruct l as [|p l]; [reflexivity|].
    rewrite firstn_cons. cbn [Spec.events_before_break].
    destruct (past_event p); [|reflexivity].
    rewrite firstn_cons. now rewrite IH.
Qed.

(** *** The statements of the [try] block *)

Lemma past_loop_fields (selected : list (date * row)) (e : Entry) :
  let e' := fst (past_loop selected e) in
  e_symbol pyfloat e' = e_symbol pyfloat e
  /\ next_earnings_date pyfloat e' = next_earnings_date pyfloat e
  /\ next_earnings_estimate pyfloat e' = next_earnings_estimate pyfloat e
  /\ past_earnings pyfloat e'
     = past_earnings pyfloat e ++ events_before_break selected.
Proof.
  revert e. induction selected as [|p rest IH]; intros e.
  - cbn. now rewrite app_nil_r.
  - cbn [Earnings.past_loop Spec.events_before_break].
    unfold bind, call. destruct (past_event p) as [ev|].
    + unfold write. cbn [fst snd].
      destruct (IH (with_past_event pyfloat ev e)) as (H1 & H2 & H3 & H4).
      cbn zeta in *. rewrite H1, H2, H3, H4.
      cbn [with_past_event e_symbol next_earnings_date
             next_earnings_estimate past_earnings].
      now rewrite <- app_assoc.
    + cbn. now rewrite app_nil_r.
Qed.

Lemma set_past_fields (num : Z) (past_rows : list (date * row)) (e : Entry) :
  let e' := fst (set_past num past_rows e) in
  e_symbol pyfloat e' = e_symbol pyfloat e
  /\ next_earnings_date pyfloat e' = next_earnings_date pyfloat e
  /\ next_earnings_estimate pyfloat e' = next_earnings_estimate pyfloat e
  /\ past_earnings pyfloat e'
     = past_earnings pyfloat e
       ++ events_before_break
            (take (Z.to_nat (Z.max (num - 1) 0)) (sort_by geb past_rows)).
Proof.
  unfold Earnings.set_past.
  destruct (0 <? Z.max (num - 1) 0)%Z eqn:E; cbn [andb].
  - destruct past_rows as [|p past_rows]; cbn [null negb].
    + cbn [sort_by]. rewrite take_nil. cbn. now rewrite app_nil_r.
    + apply past_loop_fields.
  - apply Z.ltb_ge in E.
    replace (Z.to_nat (Z.max (num - 1) 0)) with 0 by lia.
    cbn. now rewrite app_nil_r.
Qed.

Lemma set_next_fields (future_rows : list (date * row)) (sym : string) :
  set_next future_rows (fresh_entry sym)
  = ({| e_symbol := sym;
        next_earnings_date := next_date_of future_rows;
        next_earnings_estimate :=
          match next_scan_of future_rows with
          | Returns est => est
          | Raises => None
          end;
        past_earnings := [] |},
     match next_scan_of future_rows with
     | Returns _ => Returns tt
     | Raises => Raises
     end).
Proof.
  unfold Spec.next_date_of, Spec.next_scan_of.
  destruct future_rows as [|[d r] rest]; [reflexivity|].
  cbn [Earnings.set_next head option_map fst snd].
  unfold bind, write, call. cbn [fst snd].
  destruct (scan_keys estimate_keys r); reflexivity.
Qed.

(** The entry built from rows that all carry a date. *)
Lemma fill_entry_fields (today : date) (num : Z) (rows0 : list (pydate * row))
    (rows : list (date * row)) (sym : string) :
  compared_rows rows0 = Returns rows ->
  let e := fst (fill_entry today num rows0 (fresh_entry sym)) in
  let sorted := sort_by leb rows in
  let future := List.filter (fun p => geb (fst p) today) sorted in
  let past := List.filter (fun p => ltb (fst p) today) sorted in
  e_symbol pyfloat e = sym
  /\ next_earnings_date pyfloat e = next_date_of future
  /\ next_earnings_estimate pyfloat e
     = match next_scan_of future with
       | Returns est => est
       | Raises => None
       end
  /\ past_earnings pyfloat e
     = match next_scan_of future with
       | Returns _ =>
           events_before_break
             (take (Z.to_nat (Z.max (num - 1) 0)) (sort_by geb past))
       | Raises => []
       end.
Proof.
  intros Hrows e sorted future past.
  assert (Heq : fill_entry today num rows0 (fresh_entry sym)
                = match set_next future (fresh_entry sym) with
                  | (entry', Returns _) => set_past num past entry'
                  | (entry', Raises) => (entry', Raises)
                  end).
  { unfold Earnings.fill_entry, bind, call. now rewrite Hrows. }
  subst e. rewrite Heq, set_next_fields.
  destruct (next_scan_of future) as [est|]; cbn [fst snd].
  - match goal with
    | |- context [set_past num past ?e0] =>
        destruct (set_past_fields num past e0) as (H1 & H2 & H3 & H4)
    end.
    cbn zeta in *. rewrite H1, H2, H3, H4. repeat split.
  - repeat split.
Qed.

(** With a row that is no date, nothing is written. *)
Lemma fill_entry_not_compared (today : date) (num : Z)
    (rows0 : list (pydate * row)) (e : Entry) :
  compared_rows rows0 = Raises ->
  fill_entry today num rows0 e = (e, Raises).
Proof.
  intros H. unfold Earnings.fill_entry, bind, call. now rewrite H.
Qed.

Lemma fill_entry_no_rows (today : date) (num : Z) (sym : string) :
  fst (fill_entry today num [] (fresh_entry sym)) = fresh_entry sym.
Proof.
  unfold Earnings.fill_entry, bind, call, Earnings.set_past.
  cbn [Earnings.compared_rows sort_by List.filter Earnings.set_next ret
         null negb fst snd].
  now rewrite andb_false_r.
Qed.

(** *** The loop over the symbols *)

Lemma results_loop_map (w : World) (today : date) (num : Z)
    (syms : list string) (results : list Entry) :
  results_loop pyfloat float_of_str fromisoformat w today num syms results
  = results ++ map (symbol_entry w today num) syms.
Proof.
  revert results. induction syms as [|sym syms IH]; intros results.
  - cbn. now rewrite app_nil_r.
  - cbn [results_loop map]. rewrite IH, <- app_assoc. reflexivity.
Qed.

Lemma normalize_symbols_spec (l : list (option string)) :
  normalize_symbols l
  = map upper
      (List.filter (fun s => negb (String.eqb s EmptyString))
         (map (fun o => strip (default EmptyString o)) l)).
Proof.
  induction l as [|o l IH]; [reflexivity|].
  cbn [normalize_symbols map List.filter].
  destruct (String.eqb (strip (default EmptyString o)) EmptyString);
    cbn [negb map]; now rewrite IH.
Qed.

(** One reading of the clock, one entry per normalized symbol. *)
Lemma get_earnings_calendar_unfold (w : World) (t : nat)
    (symbols : symbols_arg) (num : Z) :
  get_earnings_calendar w t symbols num
  = (map (symbol_entry w (clock pyfloat w t) (effective_num num))
       (normalized symbols), S t).
Proof.
  unfold Earnings.get_earnings_calendar, normalized, effective_num.
  rewrite results_loop_map, normalize_symbols_spec. reflexivity.
Qed.

(** The entry of a symbol whose ticker cannot be built. *)
Lemma symbol_entry_no_ticker (w : World) (today : date) (num : Z)
    (sym : string) :
  Ticker pyfloat w sym = Raises ->
  symbol_entry w today num sym = fresh_entry sym.
Proof.
  intros H. unfold Earnings.symbol_entry, Earnings.try_block, bind, call.
  now rewrite H.
Qed.

(** The entry of a symbol, from what was obtained as its frame. *)
Lemma symbol_entry_readable (w : World) (today : date) (num : Z)
    (sym : string) tk df raw :
  Ticker pyfloat w sym = Returns tk ->
  fetch_frame tk num = Returns (Some df) ->
  empty pyfloat df = false ->
  iterrows pyfloat df = Returns raw ->
  symbol_entry w today num sym
  = fst (fill_entry today num (collect_rows raw) (fresh_entry sym)).
Proof.
  intros Ht Hf He Hi.
  unfold Earnings.symbol_entry, Earnings.try_block, bind, call.
  rewrite Ht, Hf, He, Hi.
  destruct (collect_rows raw) eqn:Er; [|reflexivity].
  now rewrite fill_entry_no_rows.
Qed.

Lemma symbol_entry_unusable (w : World) (today : date) (num : Z)
    (sym : string) tk :
  Ticker pyfloat w sym = Returns tk ->
  unusable (fetch_frame tk num) ->
  symbol_entry w today num sym = fresh_entry sym.
Proof.
  intros Ht Hun.
  unfold Earnings.symbol_entry, Earnings.try_block, bind, call. rewrite Ht.
  inversion Hun as [E|E|df He E|df Hi E|df raw Hi Hr E]; try reflexivity.
  - now rewrite He.
  - destruct (empty pyfloat df); [reflexivity|]. now rewrite Hi.
  - destruct (empty pyfloat df); [reflexivity|]. now rewrite Hi, Hr.
Qed.

(** The entry of a symbol is either untouched, or filled from the rows of
    a frame that could be read. *)
Lemma symbol_entry_cases (w : World) (today : date) (num : Z) (sym : string) :
  symbol_entry w today num sym = fresh_entry sym
  \/ exists tk df raw,
       Ticker pyfloat w sym = Returns tk
       /\ fetch_frame tk num = Returns (Some df)
       /\ empty pyfloat df = false
       /\ iterrows pyfloat df = Returns raw
       /\ symbol_entry w today num sym
          = fst (fill_entry today num (collect_rows raw) (fresh_entry sym)).
Proof.
  destruct (Ticker pyfloat w sym) as [tk|] eqn:Ht;
    [|left; now apply symbol_entry_no_ticker].
  destruct (fetch_frame tk num) as [[df|]|] eqn:Ef;
    [|left; apply (symbol_entry_unusable w today num sym tk Ht);
      rewrite Ef; constructor..].
  destruct (empty pyfloat df) eqn:Ee;
    [left; apply (symbol_entry_unusable w today num sym tk Ht);
     rewrite Ef; now apply un_empty|].
  destruct (iterrows pyfloat df) as [raw|] eqn:Ei;
    [|left; apply (symbol_entry_unusable w today num sym tk Ht);
      rewrite Ef; now apply un_iter].
  right. exists tk, df, raw. repeat split; auto.
  now apply (symbol_entry_readable w today num sym tk df raw).
Qed.

(** The rows an entry is built from do not depend on [num] as long as the
    same number of events is asked of the source. *)
Lemma symbol_entry_rows (w : World) (today : date) (num : Z) (sym : string) :
  exists rows, forall num',
    Z.max (num' + 4) 8 = Z.max (num + 4) 8 ->
    symbol_entry w today num' sym
    = fst (fill_entry today num' rows (fresh_entry sym)).
Proof.
  assert (Hfetch : forall tk num',
             Z.max (num' + 4) 8 = Z.max (num + 4) 8 ->
             fetch_frame tk num' = fetch_frame tk num)
    by (intros tk n' Hn; unfold Earnings.fetch_frame; now rewrite Hn).
  destruct (Ticker pyfloat w sym) as [tk|] eqn:Ht.
  2:{ exists []. intros n' _. rewrite fill_entry_no_rows.
      now apply symbol_entry_no_ticker. }
  destruct (fetch_frame tk num) as [[df|]|] eqn:Ef.
  2,3: exists []; intros n' Hn; rewrite fill_entry_no_rows;
       apply (symbol_entry_unusable w today n' sym tk Ht);
       rewrite (Hfetch tk n' Hn), Ef; constructor.
  destruct (empty pyfloat df) eqn:Ee.
  { exists []. intros n' Hn. rewrite fill_entry_no_rows.
    apply (symbol_entry_unusable w today n' sym tk Ht).
    rewrite (Hfetch tk n' Hn), Ef. now apply un_empty. }
  destruct (iterrows pyfloat df) as [raw|] eqn:Ei.
  2:{ exists []. intros n' Hn. rewrite fill_entry_no_rows.
      apply (symbol_entry_unusable w today n' sym tk Ht).
      rewrite (Hfetch tk n' Hn), Ef. now apply un_iter. }
  exists (collect_rows raw). intros n' Hn.
  apply (symbol_entry_readable w today n' sym tk df raw); auto.
  now rewrite (Hfetch tk n' Hn).
Qed.

(** What an entry can be, whatever the rows: its symbol, and its past
    events as a function of [num]. *)
Lemma fill_entry_shape (today : date) (rows0 : list (pydate * row))
    (sym : string) :
  exists nd ne (sel : list (date * row)) (cut : bool),
    forall num,
      let e := fst (fill_entry today num rows0 (fresh_entry sym)) in
      e_symbol pyfloat e = sym
      /\ next_earnings_date pyfloat e = nd
      /\ next_earnings_estimate pyfloat e = ne
      /\ past_earnings pyfloat e
         = if cut then []
           else events_before_break
                  (take (Z.to_nat (Z.max (num - 1) 0)) sel).
Proof.
  destruct (compared_rows rows0) as [rows|] eqn:Ec.
  - set (sorted := sort_by leb rows).
    set (future := List.filter (fun p : date * row => geb (fst p) today) sorted).
    set (past := List.filter (fun p : date * row => ltb (fst p) today) sorted).
    exists (next_date_of future),
      (match next_scan_of future with Returns est => est | Raises => None end),
      (sort_by geb past),
      (match next_scan_of future with Returns _ => false | Raises => true end).
    intros num.
    destruct (fill_entry_fields today num rows0 rows sym Ec)
      as (H1 & H2 & H3 & H4).
    cbn zeta in *. fold sorted in H2, H3, H4. fold future in H2, H3, H4.
    fold past in H4. rewrite H1, H2, H3, H4.
    destruct (next_scan_of future); repeat split.
  - exists None, None, [], true. intros num.
    rewrite (fill_entry_not_compared today num rows0 _ Ec). cbn.
    repeat split.
Qed.

(** The symbol of an entry is the symbol it was built for. *)
Lemma symbol_entry_symbol (w : World) (today : date) (num : Z) (sym : string) :
  e_symbol pyfloat (symbol_entry w today num sym) = sym.
Proof.
  destruct (symbol_entry_rows w today num sym) as [rows Hrows].
  rewrite (Hrows num eq_refl).
  destruct (fill_entry_shape today rows sym) as (nd & ne & sel & cut & H).
  apply (H num).
Qed.


(** *** Where the frame comes from *)

Lemma fetch_frame_query (tk : ticker pyfloat) (num : Z) o :
  get_earnings_dates pyfloat tk (Z.max (num + 4) 8) = Returns o ->
  fetch_frame tk num = Returns o.
Proof. intros H. unfold Earnings.fetch_frame. now rewrite H. Qed.

Lemma fetch_frame_calendar (tk : ticker pyfloat) (num : Z) :
  get_earnings_dates pyfloat tk (Z.max (num + 4) 8) = Raises ->
  fetch_frame tk num = calendar pyfloat tk.
Proof. intros H. unfold Earnings.fetch_frame. now rewrite H. Qed.

(** The entry built from rows that all carry a date and whose candidate
    values never break a key loop. *)
Lemma fill_entry_sound (today : date) (num : Z) (rows0 : list (pydate * row))
    (rows : list (date * row)) (sym : string) :
  compared_rows rows0 = Returns rows ->
  Forall (fun p => sound_row (snd p) = true) rows ->
  let e := fst (fill_entry today num rows0 (fresh_entry sym)) in
  let sorted := sort_by leb rows in
  let future := List.filter (fun p => geb (fst p) today) sorted in
  let past := List.filter (fun p => ltb (fst p) today) sorted in
  e_symbol pyfloat e = sym
  /\ next_earnings_date pyfloat e = next_date_of future
  /\ next_earnings_estimate pyfloat e
     = match future with
       | [] => None
       | (_, r) :: _ => first_usable estimate_keys r
       end
  /\ past_earnings pyfloat e
     = map event_of (take (Z.to_nat (Z.max (num - 1) 0)) (sort_by geb past)).
Proof.
  intros Hrows Hsound e sorted future past.
  destruct (fill_entry_fields today num rows0 rows sym Hrows)
    as (H1 & H2 & H3 & H4).
  cbn zeta in *. fold sorted in H2, H3, H4. fold future in H2, H3, H4.
  fold past in H4. subst e.
  assert (Hin : forall p, In p sorted -> sound_row (snd p) = true).
  { intros p Hp. rewrite List.Forall_forall in Hsound. apply Hsound.
    revert Hp. apply Permutation_in, sort_by_perm. }
  assert (Hscan : next_scan_of future
                  = Returns match future with
                            | [] => None
                            | (_, r) :: _ => first_usable estimate_keys r
                            end).
  { unfold Spec.next_scan_of.
    assert (Hf : forall p, In p future -> sound_row (snd p) = true)
      by (intros p Hp; apply Hin; unfold future in Hp;
          now apply filter_In in Hp).
    destruct future as [|[d r] future']; [reflexivity|]. cbn [head snd].
    apply scan_keys_sound. apply (sound_row_keys r).
    apply (Hf (d, r)). now left. }
  rewrite Hscan in H3, H4. rewrite H1, H2, H3, H4.
  repeat split. apply events_before_break_sound.
  apply List.Forall_forall. intros p Hp.
  apply Hin. apply in_take in Hp.
  assert (Hp' : In p past)
    by (revert Hp; apply Permutation_in, sort_by_perm).
  unfold past in Hp'. now apply filter_In in Hp'.
Qed.

(** *** The claims on the earnings normalizer *)

(** C1, as the code has it. The call always returns, with exactly one
    entry per normalized (trimmed, non-empty, upper-cased) input symbol, in
    input order.  With [limit = max(num + 4, 8)] for the effective [num]:
    a symbol gets the all-empty entry when its ticker cannot be built;
    when [get_earnings_dates(limit)] returns and what it returns is
    [None], empty, cannot be iterated or has no row with a date; and when
    [get_earnings_dates(limit)] raises and the [calendar] attribute raises
    or is such a value.  When [get_earnings_dates(limit)] raises and
    [calendar] is a frame that can be iterated, the entry is built from
    the rows of [calendar], by the same steps as from the rows of a frame
    that [get_earnings_dates(limit)] returns; when these rows all carry a
    date, [next_earnings_date] is the ISO date of the earliest of them
    that is not before today. *)
Theorem calendar_one_entry_per_symbol (w : World) (t : nat)
    (symbols : symbols_arg) (num : Z) :
  let results := fst (get_earnings_calendar w t symbols num) in
  let today := clock pyfloat w t in
  let limit := Z.max (effective_num num + 4) 8 in
  map (e_symbol pyfloat) results = normalized symbols
  /\ length results = length (normalized symbols)
  /\ forall i sym,
       normalized symbols !! i = Some sym ->
       (Ticker pyfloat w sym = Raises ->
        results !! i = Some (fresh_entry sym))
       /\ forall tk,
            Ticker pyfloat w sym = Returns tk ->
            (forall o,
               get_earnings_dates pyfloat tk limit = Returns o ->
               (unusable (Returns o) ->
                results !! i = Some (fresh_entry sym))
               /\ forall df raw,
                    o = Some df ->
                    empty pyfloat df = false ->
                    iterrows pyfloat df = Returns raw ->
                    results !! i
                    = Some (fst (fill_entry today (effective_num num)
                                   (collect_rows raw) (fresh_entry sym))))
            /\ (get_earnings_dates pyfloat tk limit = Raises ->
                (unusable (calendar pyfloat tk) ->
                 results !! i = Some (fresh_entry sym))
                /\ forall df raw,
                     calendar pyfloat tk = Returns (Some df) ->
                     empty pyfloat df = false ->
                     iterrows pyfloat df = Returns raw ->
                     results !! i
                     = Some (fst (fill_entry today (effective_num num)
                                    (collect_rows raw) (fresh_entry sym)))
                     /\ forall rows,
                          compared_rows (collect_rows raw) = Returns rows ->
                          exists e,
                            results !! i = Some e
                            /\ next_earnings_date pyfloat e
                               = option_map (fun p => isoformat (fst p))
                                   (head (List.filter
                                            (fun p => geb (fst p) today)
                                            (sort_by leb rows)))).
Proof.
  intros results today limit. subst results limit.
  rewrite get_earnings_calendar_unfold. cbn [fst]. fold today.
  split; [|split].
  - rewrite map_map. erewrite map_ext; [apply map_id|].
    intros sym. apply symbol_entry_symbol.
  - apply length_map.
  - intros i sym Hi. rewrite lookup_map, Hi. cbn [option_map].
    split; [intros Ht; f_equal; now apply symbol_entry_no_ticker|].
    intros tk Ht. split.
    + intros o Ho.
      pose proof (fetch_frame_query tk (effective_num num) o Ho) as Hf.
      split.
      * intros Hun. f_equal.
        apply (symbol_entry_unusable w today _ sym tk Ht). now rewrite Hf.
      * intros df raw -> He Hr. f_equal.
        now apply (symbol_entry_readable w today _ sym tk df raw).
    + intros Hq.
      pose proof (fetch_frame_calendar tk (effective_num num) Hq) as Hf.
      split.
      * intros Hun. f_equal.
        apply (symbol_entry_unusable w today _ sym tk Ht). now rewrite Hf.
      * intros df raw Hc He Hr.
        assert (Hentry : symbol_entry w today (effective_num num) sym
                         = fst (fill_entry today (effective_num num)
                                  (collect_rows raw) (fresh_entry sym))).
        { apply (symbol_entry_readable w today _ sym tk df raw); auto.
          now rewrite Hf. }
        rewrite Hentry. split; [reflexivity|].
        intros rows Hrows. eexists. split; [reflexivity|].
        apply (fill_entry_fields today _ _ rows sym Hrows).
Qed.

(** C3. For every [symbols] and every [num <= 0] the call returns what the
    same call returns with [num = 1]; and with [num = 1] every entry has
    an empty [past_earnings], whatever rows the source returns. *)
Theorem calendar_nonpositive_num_is_one (w : World) (t : nat)
    (symbols : symbols_arg) (num : Z) :
  (num <= 0)%Z ->
  get_earnings_calendar w t symbols num = get_earnings_calendar w t symbols 1
  /\ Forall (fun e => past_earnings pyfloat e = [])
       (fst (get_earnings_calendar w t symbols 1)).
Proof.
  intros Hnum. rewrite !get_earnings_calendar_unfold. split.
  - unfold effective_num. destruct (Z.leb_spec num 0); [reflexivity|lia].
  - cbn [fst]. apply List.Forall_forall. intros e He.
    apply in_map_iff in He as (sym & <- & _).
    change (effective_num 1) with 1%Z.
    destruct (symbol_entry_rows w (clock pyfloat w t) 1 sym) as [rows Hrows].
    rewrite (Hrows 1%Z eq_refl).
    destruct (fill_entry_shape (clock pyfloat w t) rows sym)
      as (nd & ne & sel & cut & H).
    destruct (H 1%Z) as (_ & _ & _ & ->).
    destruct cut; reflexivity.
Qed.

(** X23. For a symbol whose frame can be read, whose rows with an index
    all carry a date and whose candidate values never make [float] raise
    anything but [TypeError] or [ValueError], with [today] the one date
    read at the start of the call: the rows are sorted ascending and
    split into the future ones (date >= today) and the past ones (date <
    today); [next_earnings_date] is the ISO date of the earliest future
    row and [next_earnings_estimate] the first usable estimate of that
    row, both [None] when there is none; [past_earnings] is made of the
    max(num - 1, 0) most recent past rows (all of them when there are
    fewer), most recent first. *)
Theorem sound_rows_split_on_today (w : World) (t : nat)
    (symbols : symbols_arg) (num : Z) (i : nat) (sym : string) tk df raw
    (rows : list (date * row)) :
  normalized symbols !! i = Some sym ->
  Ticker pyfloat w sym = Returns tk ->
  fetch_frame tk (effective_num num) = Returns (Some df) ->
  empty pyfloat df = false ->
  iterrows pyfloat df = Returns raw ->
  compared_rows (collect_rows raw) = Returns rows ->
  Forall (fun p => sound_row (snd p) = true) rows ->
  let today := clock pyfloat w t in
  snd (get_earnings_calendar w t symbols num) = S t
  /\ exists e sorted,
       fst (get_earnings_calendar w t symbols num) !! i = Some e
       /\ e_symbol pyfloat e = sym
       /\ Permutation sorted rows
       /\ ascending sorted
       /\ let future := List.filter (fun p => geb (fst p) today) sorted in
          let past := List.filter (fun p => ltb (fst p) today) sorted in
          (forall p, In p future <-> In p rows /\ geb (fst p) today = true)
          /\ (forall p, In p past <-> In p rows /\ ltb (fst p) today = true)
          /\ match future with
             | [] => next_earnings_date pyfloat e = None
                     /\ next_earnings_estimate pyfloat e = None
             | (d, r) :: _ =>
                 next_earnings_date pyfloat e = Some (isoformat d)
                 /\ next_earnings_estimate pyfloat e
                    = first_usable
                        ["EPS Estimate"; "epsestimate"; "Estimate";
                         "estimate"] r
                 /\ forall p, In p rows -> geb (fst p) today = true ->
                              leb d (fst p) = true
             end
          /\ exists chosen rest,
               Permutation (chosen ++ rest) past
               /\ descending chosen
               /\ (forall x y, In x chosen -> In y rest ->
                               geb (fst x) (fst y) = true)
               /\ length chosen
                  = Nat.min (Z.to_nat (Z.max (num - 1) 0)) (length past)
               /\ past_earnings pyfloat e = map event_of chosen.
Proof.
  intros Hi Ht Hf He Hr Hrows Hsound today.
  rewrite get_earnings_calendar_unfold. cbn [fst snd]. split; [reflexivity|].
  fold today.
  exists (symbol_entry w today (effective_num num) sym), (sort_by leb rows).
  rewrite lookup_map, Hi. cbn [option_map].
  rewrite (symbol_entry_readable w today _ sym tk df raw Ht Hf He Hr).
  destruct (fill_entry_sound today (effective_num num) (collect_rows raw)
              rows sym Hrows Hsound) as (H1 & H2 & H3 & H4).
  cbn zeta in H1, H2, H3, H4.
  set (sorted := sort_by leb rows) in *.
  set (future := List.filter (fun p : date * row => geb (fst p) today) sorted)
    in *.
  set (past := List.filter (fun p : date * row => ltb (fst p) today) sorted)
    in *.
  assert (Hperm : Permutation sorted rows) by apply sort_by_perm.
  assert (Hsorted : ascending sorted)
    by (apply sort_by_sorted;
        [apply DateFacts.leb_total | apply DateFacts.leb_trans]).
  assert (Hin : forall p, In p sorted <-> In p rows).
  { intros p. split; apply Permutation_in; [exact Hperm|now symmetry]. }
  split; [reflexivity|]. split; [exact H1|].
  split; [exact Hperm|]. split; [exact Hsorted|].
  cbv zeta. split; [|split; [|split]].
  - intros p. unfold future. now rewrite filter_In, Hin.
  - intros p. unfold past. now rewrite filter_In, Hin.
  - rewrite H2, H3. unfold Spec.next_date_of.
    assert (Hfs : ascending future) by (now apply filter_sorted).
    assert (Hfin : forall p, In p rows -> geb (fst p) today = true ->
                             In p future).
    { intros p Hp Hg. unfold future. rewrite filter_In, Hin. auto. }
    destruct future as [|[d r] future']; [now split|].
    split; [reflexivity|]. split; [reflexivity|].
    intros p Hp Hg. destruct (Hfin p Hp Hg) as [<-|Hp'].
    + apply DateFacts.leb_refl.
    + apply StronglySorted_inv in Hfs as [_ Hall].
      rewrite List.Forall_forall in Hall. exact (Hall p Hp').
  - set (k := Z.to_nat (Z.max (num - 1) 0)).
    exists (take k (sort_by geb past)), (drop k (sort_by geb past)).
    assert (Hd : descending (sort_by geb past))
      by (apply sort_by_sorted;
          [apply DateFacts.geb_total | apply DateFacts.geb_trans]).
    rewrite <- (take_drop k (sort_by geb past)) in Hd.
    split; [rewrite take_drop; apply sort_by_perm|].
    split; [exact (StronglySorted_app_1_l _ _ _ Hd)|].
    split.
    + intros x y Hx Hy.
      apply (StronglySorted_app_1_elem_of _ _ _ x y Hd);
        now apply list_elem_of_In.
    + split.
      * rewrite length_take. f_equal.
        apply Permutation_length, sort_by_perm.
      * rewrite H4, max_past_effective. reflexivity.
Qed.

(** X24. Each of [eps_estimate], [eps_actual], [surprise_percent] and
    the estimate of the next event is read on its own, by going through its
    own list of candidate field names in order.  A key loop that returns
    gives the first value that is present, not [None] and accepted by
    [float], and [None] when no candidate gives one; it returns whenever
    no candidate makes [float] raise anything but [TypeError] or
    [ValueError], and it raises exactly when a candidate that does comes
    before every usable one.  For rows that never raise so, the estimate
    of an entry is that of the earliest coming row and each past event is
    made of the three values of its row.  A value does not depend on the
    fields outside its own list, and a row that has both "EPS Estimate"
    and "epsestimate" gives the value of "EPS Estimate" when [float]
    accepts it. *)
Theorem key_loops_take_first_usable :
  (forall keys (r : row) x,
     scan_keys keys r = Returns x -> x = first_usable keys r)
  /\ (forall keys (r : row),
        (forall k, In k keys -> breaks r k = false) ->
        scan_keys keys r = Returns (first_usable keys r))
  /\ (forall keys (r : row),
        scan_keys keys r = Raises <->
        exists pre k post,
          keys = pre ++ k :: post /\ breaks r k = true
          /\ forall k', In k' pre -> usable r k' = None)
  /\ (forall d (r : row),
        sound_row r = true ->
        past_event (d, r)
        = Returns
            {| pe_date := isoformat d;
               eps_estimate :=
                 first_usable
                   ["EPS Estimate"; "epsestimate"; "Estimate"; "estimate"] r;
               eps_actual :=
                 first_usable
                   ["Reported EPS"; "reportedEPS"; "epsactual"; "actual"] r;
               surprise_percent :=
                 first_usable
                   ["Surprise(%)"; "surprise"; "surprise_percent"] r |})
  /\ (forall (w : World) today num sym tk df raw (rows : list (date * row)),
        Ticker pyfloat w sym = Returns tk ->
        fetch_frame tk num = Returns (Some df) ->
        empty pyfloat df = false ->
        iterrows pyfloat df = Returns raw ->
        compared_rows (collect_rows raw) = Returns rows ->
        Forall (fun p => sound_row (snd p) = true) rows ->
        let e := symbol_entry w today num sym in
        let sorted := sort_by leb rows in
        let future := List.filter (fun p => geb (fst p) today) sorted in
        let past := List.filter (fun p => ltb (fst p) today) sorted in
        next_earnings_estimate pyfloat e
        = match future with
          | [] => None
          | (_, r) :: _ =>
              first_usable
                ["EPS Estimate"; "epsestimate"; "Estimate"; "estimate"] r
          end
        /\ past_earnings pyfloat e
           = map (fun p =>
                    {| pe_date := isoformat (fst p);
                       eps_estimate :=
                         first_usable
                           ["EPS Estimate"; "epsestimate"; "Estimate";
                            "estimate"] (snd p);
                       eps_actual :=
                         first_usable
                           ["Reported EPS"; "reportedEPS"; "epsactual";
                            "actual"] (snd p);
                       surprise_percent :=
                         first_usable
                           ["Surprise(%)"; "surprise"; "surprise_percent"]
                           (snd p) |})
               (take (Z.to_nat (Z.max (num - 1) 0)) (sort_by geb past)))
  /\ (forall keys (r r' : row),
        (forall k, In k keys -> r !! k = r' !! k) ->
        first_usable keys r = first_usable keys r')
  /\ (forall (r : row) v v' x,
        r !! "EPS Estimate" = Some v ->
        r !! "epsestimate" = Some v' ->
        float_of_cell pyfloat float_of_str v = Converted x ->
        first_usable ["EPS Estimate"; "epsestimate"; "Estimate"; "estimate"] r
        = Some x).
Proof.
  split; [|split; [|split; [|split; [|split; [|split]]]]].
  - apply scan_keys_returns.
  - apply scan_keys_sound.
  - apply scan_keys_raises.
  - intros d r Hs. exact (past_event_sound (d, r) Hs).
  - intros w today num sym tk df raw rows Ht Hf He Hr Hrows Hsound
      e sorted future past. subst e.
    rewrite (symbol_entry_readable w today num sym tk df raw Ht Hf He Hr).
    destruct (fill_entry_sound today num (collect_rows raw) rows sym
                Hrows Hsound) as (_ & _ & H3 & H4).
    split; [exact H3 | exact H4].
  - apply first_usable_ext.
  - intros r v v' x Hv _ Hx.
    unfold Spec.first_usable. cbn [omap list_omap].
    unfold Spec.usable at 1. rewrite Hv.
    assert (Hnn : is_not_none pyfloat v = true)
      by (destruct v; try reflexivity; discriminate Hx).
    now rewrite Hnn, Hx.
Qed.

(** X25. A row whose index is a missing timestamp is kept by the loop of
    lines 93-103, and then lines 111-113 raise on it: the entry of the symbol
    stays all empty, whatever the other rows hold. *)
Theorem missing_timestamp_empties_entry (w : World) (t : nat)
    (symbols : symbols_arg) (num : Z) (i : nat) (sym : string) tk df
    (pre post : list (index * row)) (r : row) :
  normalized symbols !! i = Some sym ->
  Ticker pyfloat w sym = Returns tk ->
  fetch_frame tk (effective_num num) = Returns (Some df) ->
  iterrows pyfloat df = Returns (pre ++ (Missing, r) :: post) ->
  fst (get_earnings_calendar w t symbols num) !! i
  = Some (fresh_entry sym).
Proof.
  intros Hi Ht Hf Hr.
  rewrite get_earnings_calendar_unfold. cbn [fst].
  rewrite lookup_map, Hi. cbn [option_map]. f_equal.
  destruct (empty pyfloat df) eqn:He.
  { apply (symbol_entry_unusable w _ _ sym tk Ht). rewrite Hf.
    now apply un_empty. }
  rewrite (symbol_entry_readable w _ _ sym tk df _ Ht Hf He Hr).
  rewrite fill_entry_not_compared; [reflexivity|].
  clear. induction pre as [|[idx r0] pre IH].
  - reflexivity.
  - cbn [app Earnings.collect_rows].
    destruct (index_date fromisoformat idx) as [[d|]|];
      cbn [Earnings.compared_rows]; [|reflexivity|exact IH].
    now rewrite IH.
Qed.



End EarningsFacts.

(** *** The earnings claims on concrete inputs *)

(** The whole result for a batch of five symbols, read on 2026-11-03 with
    [num = 3]. *)
Example calendar_batch :
  Demo.get_earnings_calendar Demo.world 0
    (ManySymbols [Some " aapl "; None; Some "  "; Some "msft"; Some "ibm"]) 3
  = ([ {| e_symbol := "AAPL";
          next_earnings_date := Some "2027-01-28";
          next_earnings_estimate := Some "2.66";
          past_earnings :=
            [ {| pe_date := "2026-10-29"; eps_estimate := Some "1.60";
                 eps_actual := Some "1.64"; surprise_percent := Some "2.5" |};
              {| pe_date := "2026-07-30"; eps_estimate := Some "1.35";
                 eps_actual := Some "1.40"; surprise_percent := None |} ] |};
       fresh_entry Demo.pyfloat "MSFT";
       fresh_entry Demo.pyfloat "IBM" ], 1).
Proof. vm_compute. reflexivity. Qed.

(** C1 as stated fails when [get_earnings_dates] raises and the [calendar]
    attribute has rows: the entry is filled from the calendar. *)
Lemma calendar_fallback_fills_entry :
  Ticker Demo.pyfloat Demo.world "TSLA" = Returns Demo.fallback_ticker
  /\ get_earnings_dates Demo.pyfloat Demo.fallback_ticker (Z.max (1 + 4) 8)
     = Raises
  /\ fst (Demo.get_earnings_calendar Demo.world 0 (OneSymbol "tsla") 1)
     = [ {| e_symbol := "TSLA";
            next_earnings_date := Some "2027-02-10";
            next_earnings_estimate := Some "2.66";
            past_earnings := [] |} ]
  /\ fst (Demo.get_earnings_calendar Demo.world 0 (OneSymbol "tsla") 1)
     <> [ fresh_entry Demo.pyfloat "TSLA" ].
Proof.
  split; [reflexivity|]. split; [reflexivity|].
  split; [vm_compute; reflexivity|].
  vm_compute. discriminate.
Qed.

(** C4 fails on the code. Read on 2026-11-03 with [num = 3], the frame of
    ORCL has three rows with dates: one coming and two past, so the claim
    gives two past events.  The older past row holds an integer too large
    for a float under "EPS Estimate"; [float] raises [OverflowError] on
    it, the handler of line 146 does not catch it, and the entry is
    appended with the one event written before. *)
Lemma overflow_cuts_past_events :
  compared_rows Demo.pyfloat
    (collect_rows Demo.pyfloat Demo.fromisoformat
       [ (Timestamp (mkDate 2027 1 28), Demo.jan27);
         (Timestamp (mkDate 2026 10 29), Demo.oct26);
         (Timestamp (mkDate 2026 7 30), Demo.huge_jul) ])
  = Returns [ (mkDate 2027 1 28, Demo.jan27);
              (mkDate 2026 10 29, Demo.oct26);
              (mkDate 2026 7 30, Demo.huge_jul) ]
  /\ List.filter (fun p => ltb (fst p) (mkDate 2026 11 3))
       [ (mkDate 2027 1 28, Demo.jan27);
         (mkDate 2026 10 29, Demo.oct26);
         (mkDate 2026 7 30, Demo.huge_jul) ]
     = [ (mkDate 2026 10 29, Demo.oct26); (mkDate 2026 7 30, Demo.huge_jul) ]
  /\ Z.max (3 - 1) 0 = 2%Z
  /\ Demo.get_earnings_calendar Demo.world_huge 0 (OneSymbol "orcl") 3
     = ([ {| e_symbol := "ORCL";
             next_earnings_date := Some "2027-01-28";
             next_earnings_estimate := Some "2.66";
             past_earnings :=
               [ {| pe_date := "2026-10-29"; eps_estimate := Some "1.60";
                    eps_actual := Some "1.64";
                    surprise_percent := Some "2.5" |} ] |} ], 1).
Proof.
  split; [reflexivity|]. split; [reflexivity|]. split; [reflexivity|].
  vm_compute. reflexivity.
Qed.

(** C5 fails on the code. The coming row of SAP holds an integer too
    large for a float under "EPS Estimate" and the float 2.50 under
    "epsestimate", so the claim gives the estimate 2.50.  [float] raises
    [OverflowError] on the first value, the handler of line 128 does not
    catch it, the later names are never tried: the entry is appended with
    its date and no estimate, and the past row is never reached. *)
Lemma overflow_drops_next_estimate :
  usable Demo.pyfloat Demo.float_of_str Demo.huge_next "EPS Estimate" = None
  /\ usable Demo.pyfloat Demo.float_of_str Demo.huge_next "epsestimate"
     = Some "2.50"
  /\ first_usable Demo.pyfloat Demo.float_of_str
       ["EPS Estimate"; "epsestimate"; "Estimate"; "estimate"] Demo.huge_next
     = Some "2.50"
  /\ scan_keys Demo.pyfloat Demo.float_of_str
       ["EPS Estimate"; "epsestimate"; "Estimate"; "estimate"] Demo.huge_next
     = Raises
  /\ Demo.get_earnings_calendar Demo.world_huge 0 (OneSymbol "sap") 3
     = ([ {| e_symbol := "SAP";
             next_earnings_date := Some "2027-01-28";
             next_earnings_estimate := None;
             past_earnings := [] |} ], 1).
Proof.
  split; [reflexivity|]. split; [reflexivity|]. split; [reflexivity|].
  split; [reflexivity|]. vm_compute. reflexivity.
Qed.

Lemma calendar_one_entry_per_symbol_witness :
  let symbols :=
    ManySymbols [Some " aapl "; None; Some "  "; Some "msft"; Some "xyz";
                 Some "ibm"; Some "tsla"] in
  let results := fst (Demo.get_earnings_calendar Demo.world 0 symbols 3) in
  normalized symbols = ["AAPL"; "MSFT"; "XYZ"; "IBM"; "TSLA"]
  /\ map (e_symbol Demo.pyfloat) results
     = ["AAPL"; "MSFT"; "XYZ"; "IBM"; "TSLA"]
  /\ results !! 1 = Some (fresh_entry Demo.pyfloat "MSFT")
  /\ results !! 2 = Some (fresh_entry Demo.pyfloat "XYZ")
  /\ results !! 3 = Some (fresh_entry Demo.pyfloat "IBM")
  /\ results !! 4
     = Some (fst (fill_entry Demo.pyfloat Demo.float_of_str
                    (mkDate 2026 11 3) 3
                    [ (ADate (mkDate 2027 2 10), Demo.jan27) ]
                    (fresh_entry Demo.pyfloat "TSLA")))
  /\ exists e,
       results !! 4 = Some e
       /\ next_earnings_date Demo.pyfloat e = Some "2027-02-10".
Proof.
  intros symbols results.
  destruct (calendar_one_entry_per_symbol Demo.pyfloat Demo.float_of_str
              Demo.fromisoformat Demo.world 0 symbols 3)
    as (Hsyms & _ & Hentry).
  split; [reflexivity|]. split; [exact Hsyms|].
  split; [|split; [|split; [|split]]].
  - destruct (Hentry 1 "MSFT" eq_refl) as [Hraises _].
    exact (Hraises eq_refl).
  - destruct (Hentry 2 "XYZ" eq_refl) as [_ Hticker].
    destruct (Hticker Demo.broken_ticker eq_refl) as [_ Hfallback].
    destruct (Hfallback eq_refl) as [Hnone _].
    apply Hnone. apply un_raises.
  - destruct (Hentry 3 "IBM" eq_refl) as [_ Hticker].
    destruct (Hticker Demo.silent_ticker eq_refl) as [Hquery _].
    destruct (Hquery None eq_refl) as [Hnone _].
    apply Hnone. apply un_none.
  - destruct (Hentry 4 "TSLA" eq_refl) as [_ Hticker].
    destruct (Hticker Demo.fallback_ticker eq_refl) as [_ Hfallback].
    destruct (Hfallback eq_refl) as [_ Hrows].
    exact (proj1 (Hrows Demo.calendar_frame
                    [ (Timestamp (mkDate 2027 2 10), Demo.jan27) ]
                    eq_refl eq_refl eq_refl)).
  - destruct (Hentry 4 "TSLA" eq_refl) as [_ Hticker].
    destruct (Hticker Demo.fallback_ticker eq_refl) as [_ Hfallback].
    destruct (Hfallback eq_refl) as [_ Hrows].
    exact (proj2 (Hrows Demo.calendar_frame
                    [ (Timestamp (mkDate 2027 2 10), Demo.jan27) ]
                    eq_refl eq_refl eq_refl)
             [ (mkDate 2027 2 10, Demo.jan27) ] eq_refl).
Defined.

Lemma calendar_nonpositive_num_is_one_witness :
  (-2 <= 0)%Z
  /\ Demo.get_earnings_calendar Demo.world 0
       (ManySymbols [Some "aapl"; Some "tsla"]) (-2)
     = Demo.get_earnings_calendar Demo.world 0
         (ManySymbols [Some "aapl"; Some "tsla"]) 1
  /\ Forall (fun e => past_earnings Demo.pyfloat e = [])
       (fst (Demo.get_earnings_calendar Demo.world 0
               (ManySymbols [Some "aapl"; Some "tsla"]) 1)).
Proof.
  split; [lia|].
  apply (calendar_nonpositive_num_is_one Demo.pyfloat Demo.float_of_str
           Demo.fromisoformat Demo.world 0
           (ManySymbols [Some "aapl"; Some "tsla"]) (-2)).
  lia.
Defined.

Lemma sound_rows_split_on_today_witness :
  let symbols := ManySymbols [Some "msft"; Some " aapl"] in
  normalized symbols !! 1 = Some "AAPL"
  /\ Ticker Demo.pyfloat Demo.world "AAPL" = Returns Demo.apple_ticker
  /\ fetch_frame Demo.pyfloat Demo.apple_ticker (effective_num 3)
     = Returns (Some Demo.apple_frame)
  /\ empty Demo.pyfloat Demo.apple_frame = false
  /\ snd (Demo.get_earnings_calendar Demo.world 0 symbols 3) = 1
  /\ exists e chosen,
       fst (Demo.get_earnings_calendar Demo.world 0 symbols 3) !! 1 = Some e
       /\ e_symbol Demo.pyfloat e = "AAPL"
       /\ descending chosen
       /\ past_earnings Demo.pyfloat e
          = map (event_of Demo.pyfloat Demo.float_of_str) chosen.
Proof.
  intros symbols.
  destruct (sound_rows_split_on_today Demo.pyfloat Demo.float_of_str
              Demo.fromisoformat Demo.world 0 symbols 3 1 "AAPL"
              Demo.apple_ticker Demo.apple_frame
              [ (Timestamp (mkDate 2026 7 30), Demo.jul26);
                (Timestamp (mkDate 2027 1 28), Demo.jan27);
                (Label "not a date", Demo.apr26);
                (Label "2026-04-30 16:00:00", Demo.apr26);
                (Timestamp (mkDate 2026 10 29), Demo.oct26) ]
              [ (mkDate 2026 7 30, Demo.jul26);
                (mkDate 2027 1 28, Demo.jan27);
                (mkDate 2026 4 30, Demo.apr26);
                (mkDate 2026 10 29, Demo.oct26) ]
              eq_refl eq_refl eq_refl eq_refl eq_refl eq_refl)
    as (Hclock & e & sorted & He & Hsym & _ & _ & _ & _ & _
        & chosen & rest & _ & Hdesc & _ & _ & Hpast).
  - repeat constructor.
  - split; [reflexivity|]. split; [reflexivity|]. split; [reflexivity|].
    split; [reflexivity|]. split; [exact Hclock|].
    exists e, chosen. auto.
Defined.

Lemma key_loops_take_first_usable_witness :
  Demo.jan27 !! "EPS Estimate" = Some (VFloat Demo.pyfloat "2.66")
  /\ Demo.jan27 !! "epsestimate" = Some (VFloat Demo.pyfloat "9.99")
  /\ first_usable Demo.pyfloat Demo.float_of_str
       ["EPS Estimate"; "epsestimate"; "Estimate"; "estimate"] Demo.jan27
     = Some "2.66"
  /\ sound_row Demo.pyfloat Demo.float_of_str Demo.oct26 = true
  /\ past_event Demo.pyfloat Demo.float_of_str (mkDate 2026 10 29, Demo.oct26)
     = Returns {| pe_date := "2026-10-29"; eps_estimate := Some "1.60";
                  eps_actual := Some "1.64";
                  surprise_percent := Some "2.5" |}.
Proof.
  destruct (key_loops_take_first_usable Demo.pyfloat Demo.float_of_str
              Demo.fromisoformat) as (_ & _ & _ & Hevent & _ & _ & Hprio).
  split; [reflexivity|]. split; [reflexivity|]. split; [|split].
  - exact (Hprio Demo.jan27 _ _ "2.66" eq_refl eq_refl eq_refl).
  - reflexivity.
  - exact (Hevent (mkDate 2026 10 29) Demo.oct26 eq_refl).
Defined.

Lemma missing_timestamp_empties_entry_witness :
  normalized (OneSymbol "intc") !! 0 = Some "INTC"
  /\ Ticker Demo.pyfloat Demo.world_huge "INTC" = Returns Demo.missing_ticker
  /\ fst (Demo.get_earnings_calendar Demo.world_huge 0 (OneSymbol "intc") 3)
       !! 0
     = Some (fresh_entry Demo.pyfloat "INTC").
Proof.
  split; [reflexivity|]. split; [reflexivity|].
  exact (missing_timestamp_empties_entry Demo.pyfloat Demo.float_of_str
           Demo.fromisoformat Demo.world_huge 0 (OneSymbol "intc") 3 0 "INTC"
           Demo.missing_ticker Demo.missing_frame
           [ (Timestamp (mkDate 2027 1 28), Demo.jan27) ]
           [ (Timestamp (mkDate 2026 10 29), Demo.oct26) ] Demo.apr26
           eq_refl eq_refl eq_refl eq_refl).
Defined.


(** ** More facts about the string primitives and the dictionary *)

Lemma upper_char_idem (c : ascii) : upper_char (upper_char c) = upper_char c.
Proof. destruct c as [[] [] [] [] [] [] [] []]; reflexivity. Qed.

Lemma upper_idem (s : string) : upper (upper s) = upper s.
Proof.
  induction s as [|c s IH]; [reflexivity|].
  cbn [upper]. now rewrite upper_char_idem, IH.
Qed.

Lemma upper_empty (s : string) : upper s = EmptyString -> s = EmptyString.
Proof. destruct s; [reflexivity|discriminate]. Qed.

Module DictMore.

Section Facts.
Context {V : Type}.
Implicit Types (d : Dict.t V) (k : string) (v : V).

Lemma mem_get k d : Dict.mem k d = true <-> exists v, Dict.get k d = Some v.
Proof.
  unfold Dict.mem. destruct (Dict.get k d) as [v|].
  - split; eauto.
  - split; [discriminate|]. intros [v Hv]. discriminate.
Qed.

Lemma mem_keys k d : Dict.mem k d = true <-> In k (Dict.keys d).
Proof.
  unfold Dict.mem, Dict.keys.
  induction d as [|[k' v'] d IH]; cbn [Dict.get map fst In].
  - split; [discriminate|tauto].
  - destruct (String.eqb k k') eqn:E.
    + apply String.eqb_eq in E. subst. tauto.
    + apply String.eqb_neq in E. rewrite IH. split; [tauto|].
      intros [H|H]; [congruence|exact H].
Qed.

Lemma get_del_eq k d : Dict.get k (Dict.del k d) = None.
Proof.
  induction d as [|[k' v'] d IH]; [reflexivity|]. cbn [Dict.del].
  destruct (String.eqb k k') eqn:E; [exact IH|].
  cbn [Dict.get]. now rewrite E.
Qed.

Lemma get_del_ne k k' d :
  k <> k' -> Dict.get k' (Dict.del k d) = Dict.get k' d.
Proof.
  intros Hne. induction d as [|[k0 v0] d IH]; [reflexivity|].
  cbn [Dict.del]. destruct (String.eqb k k0) eqn:E.
  - apply String.eqb_eq in E. subst k0. cbn [Dict.get].
    destruct (String.eqb k' k) eqn:E'; [|exact IH].
    apply String.eqb_eq in E'. congruence.
  - cbn [Dict.get]. now rewrite IH.
Qed.

(** Deleting keeps the other items, in their order. *)
Lemma del_filter k d :
  Dict.del k d = List.filter (fun kv => negb (String.eqb k (fst kv))) d.
Proof.
  induction d as [|[k' v'] d IH]; [reflexivity|].
  cbn [Dict.del List.filter fst].
  destruct (String.eqb k k'); cbn [negb]; now rewrite IH.
Qed.

Lemma del_absent k d : Dict.mem k d = false -> Dict.del k d = d.
Proof.
  unfold Dict.mem.
  induction d as [|[k' v'] d IH]; [reflexivity|]. cbn [Dict.get Dict.del].
  destruct (String.eqb k k'); [discriminate|].
  intros H. now rewrite IH.
Qed.

(** Assigning a new key and deleting it again gives the dictionary back. *)
Lemma del_set_absent k v d :
  Dict.mem k d = false -> Dict.del k (Dict.set k v d) = d.
Proof.
  intros H. rewrite DictFacts.set_absent by assumption.
  rewrite del_filter, List.filter_app. cbn [List.filter fst].
  rewrite String.eqb_refl. cbn [negb]. rewrite app_nil_r.
  rewrite <- del_filter. now apply del_absent.
Qed.

Lemma keys_del_unique k d :
  NoDup (Dict.keys d) -> NoDup (Dict.keys (Dict.del k d)).
Proof.
  unfold Dict.keys. induction d as [|[k' v'] d IH]; [auto|].
  cbn [map fst Dict.del]. intros Hnd.
  apply NoDup_cons in Hnd as [Hk' Hnd].
  destruct (String.eqb k k'); [auto|].
  cbn [map fst]. apply NoDup_cons. split; [|auto].
  intros Hin. apply Hk'. apply list_elem_of_In in Hin.
  apply list_elem_of_In.
  rewrite del_filter in Hin. apply in_map_iff in Hin as (kv & <- & Hkv).
  apply filter_In in Hkv as [Hkv _]. now apply in_map.
Qed.

(** With unique keys, deleting a key that is present removes one item. *)
Lemma length_del_present k d :
  NoDup (Dict.keys d) -> Dict.mem k d = true ->
  S (Dict.len (Dict.del k d)) = Dict.len d.
Proof.
  unfold Dict.keys, Dict.len, Dict.mem.
  induction d as [|[k' v'] d IH]; [discriminate|].
  cbn [map fst Dict.get Dict.del]. intros Hnd.
  apply NoDup_cons in Hnd as [Hk' Hnd].
  destruct (String.eqb k k') eqn:E.
  - apply String.eqb_eq in E. subst k'. intros _.
    rewrite del_absent; [reflexivity|].
    destruct (Dict.mem k d) eqn:Em; [|reflexivity].
    apply mem_keys in Em. exfalso. apply Hk'. now apply list_elem_of_In.
  - intros H. cbn [length]. now rewrite IH.
Qed.

Lemma Forall_set (P : string * V -> Prop) k v d :
  P (k, v) -> Forall P d -> Forall P (Dict.set k v d).
Proof.
  intros Hkv. induction 1 as [|[k' v'] d Hx Hd IH]; cbn [Dict.set].
  - repeat constructor. exact Hkv.
  - destruct (String.eqb k k'); constructor; auto.
Qed.

Lemma Forall_del (P : string * V -> Prop) k d :
  Forall P d -> Forall P (Dict.del k d).
Proof.
  induction 1 as [|[k' v'] d Hx Hd IH]; cbn [Dict.del]; [constructor|].
  destruct (String.eqb k k'); [exact IH|]. now constructor.
Qed.

End Facts.

End DictMore.

(** ** The CRUD endpoints *)

Section CrudFacts.

Variable pyfloat : Type.

Abbreviation Stock := (Stock pyfloat).
Abbreviation add_stock := (Crud.add_stock pyfloat).
Abbreviation update_stock := (Crud.update_stock pyfloat).
Abbreviation delete_stock := (Crud.delete_stock pyfloat).
Abbreviation list_stocks := (Crud.list_stocks pyfloat).
Abbreviation well_keyed := (Crud.well_keyed pyfloat).
Implicit Types (st : Dict.t Stock) (stock : Stock).

(** X1. [add_stock] never replaces or removes a record that is already in
    the store: every key keeps its record, whatever is posted.  It raises
    exactly when the upper-cased symbol is already a key, with status 400,
    and then the store is untouched. *)
Theorem add_stock_keeps_existing stock st :
  (forall k r, Dict.get k st = Some r ->
               Dict.get k (snd (add_stock stock st)) = Some r)
  /\ (Dict.mem (upper (symbol pyfloat stock)) st = true ->
      add_stock stock st
      = (Crud.Raised {| Crud.status_code := 400;
                        Crud.detail := "Stock already exists" |}, st))
  /\ (Dict.mem (upper (symbol pyfloat stock)) st = false ->
      fst (add_stock stock st) = Crud.Ok stock).
Proof.
  unfold Crud.add_stock.
  destruct (Dict.mem (upper (symbol pyfloat stock)) st) eqn:E;
    cbn [fst snd]; repeat split; auto; try discriminate.
  intros k r Hk. rewrite DictFacts.get_set_ne; [exact Hk|].
  intros <-. unfold Dict.mem in E. now rewrite Hk in E.
Qed.

(** X2. A stock posted under a symbol that is not yet a key is stored as
    it was posted (its [symbol] field is not upper-cased) under the
    upper-cased symbol, and it comes last in the listing. *)
Theorem add_stock_appends stock st :
  Dict.mem (upper (symbol pyfloat stock)) st = false ->
  let st' := snd (add_stock stock st) in
  fst (add_stock stock st) = Crud.Ok stock
  /\ Dict.get (upper (symbol pyfloat stock)) st' = Some stock
  /\ list_stocks st' = list_stocks st ++ [stock].
Proof.
  intros E st'. subst st'. unfold Crud.add_stock. rewrite E. cbn [fst snd].
  split; [reflexivity|]. split; [apply DictFacts.get_set_eq|].
  rewrite DictFacts.set_absent by assumption.
  unfold Crud.list_stocks, Dict.values. now rewrite map_app.
Qed.

(** X3. Posting a second stock whose symbol differs from the first one
    only in letter case is refused with status 400 and changes nothing. *)
Theorem add_stock_twice_refused (s1 s2 : Stock) st :
  upper (symbol pyfloat s2) = upper (symbol pyfloat s1) ->
  add_stock s2 (snd (add_stock s1 st))
  = (Crud.Raised {| Crud.status_code := 400;
                    Crud.detail := "Stock already exists" |},
     snd (add_stock s1 st)).
Proof.
  intros Hk.
  apply (add_stock_keeps_existing s2 (snd (add_stock s1 st))).
  rewrite Hk. unfold Crud.add_stock.
  destruct (Dict.mem (upper (symbol pyfloat s1)) st) eqn:E; cbn [snd].
  - exact E.
  - apply DictMore.mem_get. eexists. apply DictFacts.get_set_eq.
Qed.

(** X4. [update_stock] on a key that is present stores the posted record
    with its [symbol] replaced by the upper-cased path symbol; it keeps
    the other records and the order of the store.  On a key that is
    absent it raises 404 and changes nothing. *)
Theorem update_stock_replaces (sym : string) stock st :
  (Dict.mem (upper sym) st = true ->
   let st' := snd (update_stock sym stock st) in
   let updated :=
     {| symbol := upper sym; name := name pyfloat stock;
        price := price pyfloat stock; notes := notes pyfloat stock |} in
   fst (update_stock sym stock st) = Crud.Ok updated
   /\ Dict.get (upper sym) st' = Some updated
   /\ (forall k, k <> upper sym -> Dict.get k st' = Dict.get k st)
   /\ Dict.keys st' = Dict.keys st)
  /\ (Dict.mem (upper sym) st = false ->
      update_stock sym stock st
      = (Crud.Raised {| Crud.status_code := 404;
                        Crud.detail := "Stock not found" |}, st)).
Proof.
  unfold Crud.update_stock. split; intros E; rewrite E; cbn [negb fst snd].
  - split; [reflexivity|]. split; [apply DictFacts.get_set_eq|].
    split.
    + intros k Hk. apply DictFacts.get_set_ne. congruence.
    + now apply DictFacts.keys_set_present.
  - reflexivity.
Qed.

(** X5. [delete_stock] on a key that is present removes that key and
    nothing else: the other records are kept, in their order.  A second
    [delete_stock] of the same symbol, in any letter case, raises 404. *)
Theorem delete_stock_removes (sym sym' : string) st :
  Dict.mem (upper sym) st = true ->
  upper sym' = upper sym ->
  let st' := snd (delete_stock sym st) in
  fst (delete_stock sym st) = Crud.Ok [("status", "ok")]
  /\ Dict.get (upper sym) st' = None
  /\ (forall k, k <> upper sym -> Dict.get k st' = Dict.get k st)
  /\ st' = List.filter (fun kv => negb (String.eqb (upper sym) (fst kv))) st
  /\ delete_stock sym' st'
     = (Crud.Raised {| Crud.status_code := 404;
                       Crud.detail := "Stock not found" |}, st').
Proof.
  intros E Hk st'. subst st'.
  assert (Hd : delete_stock sym st
               = (Crud.Ok [("status", "ok")], Dict.del (upper sym) st))
    by (unfold Crud.delete_stock; now rewrite E).
  rewrite Hd. cbn [fst snd].
  split; [reflexivity|]. split; [apply DictMore.get_del_eq|].
  split; [intros k Hne; apply DictMore.get_del_ne; congruence|].
  split; [apply DictMore.del_filter|].
  unfold Crud.delete_stock. rewrite Hk.
  unfold Dict.mem. now rewrite DictMore.get_del_eq.
Qed.

(** X6. Posting a stock under a new symbol and deleting that symbol again
    gives back the store exactly as it was. *)
Theorem add_then_delete_restores stock (sym : string) st :
  Dict.mem (upper (symbol pyfloat stock)) st = false ->
  upper sym = upper (symbol pyfloat stock) ->
  snd (delete_stock sym (snd (add_stock stock st))) = st.
Proof.
  intros E Hk. unfold Crud.add_stock. rewrite E. cbn [snd].
  unfold Crud.delete_stock. rewrite Hk.
  replace (Dict.mem _ (Dict.set _ stock st)) with true
    by (symmetry; apply DictMore.mem_get; eexists;
        apply DictFacts.get_set_eq).
  cbn [negb snd]. now apply DictMore.del_set_absent.
Qed.

(** X7. The three writing endpoints keep the store well keyed: its keys
    stay unique, and each record stays under the upper-cased form of its
    own [symbol]. *)
Theorem crud_keeps_well_keyed stock (sym : string) st :
  well_keyed st ->
  well_keyed (snd (add_stock stock st))
  /\ well_keyed (snd (update_stock sym stock st))
  /\ well_keyed (snd (delete_stock sym st)).
Proof.
  intros [Hnd Hkeys]. unfold Crud.well_keyed. repeat split.
  - unfold Crud.add_stock. destruct (Dict.mem _ st); cbn [snd]; [exact Hnd|].
    now apply DictFacts.set_keeps_unique.
  - unfold Crud.add_stock. destruct (Dict.mem _ st); cbn [snd]; [exact Hkeys|].
    apply DictMore.Forall_set; [reflexivity|exact Hkeys].
  - unfold Crud.update_stock.
    destruct (Dict.mem _ st); cbn [negb snd]; [|exact Hnd].
    now apply DictFacts.set_keeps_unique.
  - unfold Crud.update_stock.
    destruct (Dict.mem _ st); cbn [negb snd]; [|exact Hkeys].
    apply DictMore.Forall_set; [|exact Hkeys].
    cbn. symmetry. apply upper_idem.
  - unfold Crud.delete_stock.
    destruct (Dict.mem _ st); cbn [negb snd]; [|exact Hnd].
    now apply DictMore.keys_del_unique.
  - unfold Crud.delete_stock.
    destruct (Dict.mem _ st); cbn [negb snd]; [|exact Hkeys].
    now apply DictMore.Forall_del.
Qed.

End CrudFacts.

(** ** More of the chat interpreter *)

Lemma lstrip_all_space (s : string) :
  all_space s = true -> lstrip s = EmptyString.
Proof.
  unfold all_space. induction s as [|c s IH]; [reflexivity|].
  cbn [list_ascii_of_string forallb lstrip].
  intros H. apply andb_true_iff in H as [-> H]. auto.
Qed.

Lemma rstrip_all_space (s : string) :
  all_space s = true -> rstrip s = EmptyString.
Proof.
  unfold all_space. induction s as [|c s IH]; [reflexivity|].
  cbn [list_ascii_of_string forallb rstrip].
  intros H. apply andb_true_iff in H as [-> H]. now rewrite IH.
Qed.

Lemma append_cons (c : ascii) (s t : string) :
  String.append (String c s) t = String c (String.append s t).
Proof. reflexivity. Qed.

Lemma append_empty (t : string) : String.append EmptyString t = t.
Proof. reflexivity. Qed.

Lemma lstrip_app_space (pre s : string) :
  all_space pre = true -> lstrip (String.append pre s) = lstrip s.
Proof.
  unfold all_space. induction pre as [|c pre IH]; [reflexivity|].
  rewrite append_cons. cbn [list_ascii_of_string forallb lstrip].
  intros H. apply andb_true_iff in H as [-> H]. auto.
Qed.

Lemma rstrip_app_space (s post : string) :
  all_space post = true -> rstrip (String.append s post) = rstrip s.
Proof.
  intros H. induction s as [|c s IH].
  - rewrite append_empty. now apply rstrip_all_space.
  - rewrite append_cons. cbn [rstrip]. now rewrite IH.
Qed.

Lemma strip_app_space (s post : string) :
  all_space post = true -> strip (String.append s post) = strip s.
Proof.
  intros H. unfold strip. induction s as [|c s IH].
  - rewrite append_empty. now rewrite lstrip_all_space.
  - rewrite append_cons. cbn [lstrip].
    destruct (is_space c); [exact IH|].
    rewrite <- append_cons.
    exact (rstrip_app_space (String c s) post H).
Qed.

(** White space around a message does not change what [strip] gives. *)
Lemma strip_padded (pre s post : string) :
  all_space pre = true -> all_space post = true ->
  strip (String.append pre (String.append s post)) = strip s.
Proof.
  intros Hpre Hpost. unfold strip at 1.
  rewrite lstrip_app_space by assumption.
  exact (strip_app_space s post Hpost).
Qed.

Lemma slice_2_m1_tail {A} (a b : A) (l : list A) :
  slice_2_m1 (a :: b :: l) = take (length l - 1) l.
Proof.
  unfold slice_2_m1. cbn [length].
  destruct l as [|x l]; [reflexivity|].
  cbn [length]. replace (S (S (S (length l))) - 1) with (S (S (S (length l) - 1)))
    by lia.
  reflexivity.
Qed.

Lemma get_In {V} (k : string) (v : V) (d : Dict.t V) :
  Dict.get k d = Some v -> In (k, v) d.
Proof.
  induction d as [|[k' v'] d IH]; [discriminate|]. cbn [Dict.get].
  destruct (String.eqb k k') eqn:E.
  - apply String.eqb_eq in E. intros [= ->]. subst. now left.
  - intros H. right. auto.
Qed.

Section ChatMore.

Variable pyfloat : Type.
Variable float_of_str : string -> option pyfloat.
Variable str_of_float : pyfloat -> string.

Abbreviation Stock := (Stock pyfloat).
Abbreviation chat := (chat pyfloat float_of_str str_of_float).
Abbreviation well_keyed := (Crud.well_keyed pyfloat).
Implicit Types (st : Dict.t Stock) (msg : string).

(** [remove] of a symbol that is not in the store, lines 105-108. *)
Lemma chat_rejects_absent_remove msg st cmd s :
  split (strip msg) = [cmd; s] ->
  lower cmd = "remove" ->
  Dict.mem (upper s) st = false ->
  chat msg st
  = ({| reply := not_in_list (upper s); stocks := Dict.values st |}, st).
Proof.
  intros Hs Hcmd Hmem. unfold Backend.chat.
  rewrite (not_the_list_command msg _ _ Hs) by (right; discriminate).
  rewrite Hs, Hcmd.
  cbn [String.eqb Ascii.eqb Bool.eqb andb nth length Nat.leb Nat.eqb].
  now rewrite Hmem.
Qed.

(** What one call can do to the store: nothing, one assignment of a record
    built by [add], one deletion, or one assignment of an existing record
    with a new price. *)
Lemma chat_store_cases msg st :
  snd (chat msg st) = st
  \/ (exists s nm p,
        snd (chat msg st)
        = Dict.set (upper s)
            {| symbol := upper s; name := nm; price := p; notes := None |} st)
  \/ (exists s, Dict.mem (upper s) st = true
                /\ snd (chat msg st) = Dict.del (upper s) st)
  \/ (exists s old p,
        Dict.get (upper s) st = Some old
        /\ snd (chat msg st)
           = Dict.set (upper s) (copy_update_price pyfloat old p) st).
Proof.
  unfold Backend.chat.
  destruct (String.eqb (lower (strip msg)) "list"); [now left|].
  destruct (split (strip msg)) as [|p0 rest]; [now left|].
  set (parts := p0 :: rest).
  destruct (String.eqb (lower p0) "add" && (4 <=? length parts)%nat).
  { destruct (float_of_str (last_tok parts)) as [p|]; [|now left].
    right; left. cbn [respond snd]. eauto. }
  destruct (String.eqb (lower p0) "remove" && (length parts =? 2)%nat).
  { destruct (Dict.mem (upper (nth 1 parts EmptyString)) st) eqn:E;
      cbn [negb respond snd]; [|now left].
    right; right; left. eauto. }
  destruct (String.eqb (lower p0) "update" && (length parts =? 3)%nat);
    [|now left].
  destruct (Dict.get (upper (nth 1 parts EmptyString)) st) as [old|] eqn:E;
    [|now left].
  destruct (float_of_str (nth 2 parts EmptyString)) as [p|]; [|now left].
  right; right; right. cbn [respond snd]. eauto.
Qed.

(** X8. Whatever the message, the reply carries the listing of the store
    as the call leaves it. *)
Theorem chat_snapshot_is_current msg st :
  stocks pyfloat (fst (chat msg st)) = Dict.values (snd (chat msg st)).
Proof.
  unfold Backend.chat.
  destruct (String.eqb (lower (strip msg)) "list"); [reflexivity|].
  destruct (split (strip msg)) as [|p0 rest]; [reflexivity|].
  set (parts := p0 :: rest).
  destruct (String.eqb (lower p0) "add" && (4 <=? length parts)%nat).
  { destruct (float_of_str (last_tok parts)); reflexivity. }
  destruct (String.eqb (lower p0) "remove" && (length parts =? 2)%nat).
  { destruct (negb (Dict.mem (upper (nth 1 parts EmptyString)) st));
      reflexivity. }
  destruct (String.eqb (lower p0) "update" && (length parts =? 3)%nat);
    [|reflexivity].
  destruct (Dict.get (upper (nth 1 parts EmptyString)) st); [|reflexivity].
  destruct (float_of_str (nth 2 parts EmptyString)); reflexivity.
Qed.

(** X9. Whatever the message, one call touches at most one key: there is
    a key such that every other key has the same record, or the same
    absence, before and after; and the number of records changes by at
    most one. *)
Theorem chat_touches_one_key msg st :
  (exists key, forall k, k <> key ->
     Dict.get k (snd (chat msg st)) = Dict.get k st)
  /\ Dict.len (snd (chat msg st)) <= S (Dict.len st)
  /\ (NoDup (Dict.keys st) ->
      Dict.len st <= S (Dict.len (snd (chat msg st)))).
Proof.
  assert (Hset : forall k (v : Stock),
             Dict.len st <= Dict.len (Dict.set k v st)
             /\ Dict.len (Dict.set k v st) <= S (Dict.len st)).
  { intros k v. destruct (Dict.mem k st) eqn:E.
    - rewrite DictFacts.length_set_present by assumption. lia.
    - rewrite DictFacts.set_absent by assumption.
      unfold Dict.len. rewrite length_app. cbn [length]. lia. }
  destruct (chat_store_cases msg st)
    as [->|[(s & nm & p & ->)|[(s & Hm & ->)|(s & old & p & _ & ->)]]].
  - split; [exists EmptyString; auto|]. lia.
  - split; [exists (upper s); intros k Hk;
            apply DictFacts.get_set_ne; congruence|].
    destruct (Hset (upper s)
                {| symbol := upper s; name := nm; price := p;
                   notes := None |}). lia.
  - split; [exists (upper s); intros k Hk;
            apply DictMore.get_del_ne; congruence|].
    split.
    + rewrite DictMore.del_filter. unfold Dict.len.
      pose proof (List.filter_length_le
                    (fun kv : string * Stock =>
                       negb (String.eqb (upper s) (fst kv))) st). lia.
    + intros Hnd. rewrite (DictMore.length_del_present _ _ Hnd Hm). lia.
  - split; [exists (upper s); intros k Hk;
            apply DictFacts.get_set_ne; congruence|].
    destruct (Hset (upper s) (copy_update_price pyfloat old p)). lia.
Qed.

(** X10. [chat] keeps the store well keyed, like the CRUD endpoints it
    shares it with: keys stay unique and each record stays under the
    upper-cased form of its own [symbol]. *)
Theorem chat_keeps_well_keyed msg st :
  well_keyed st -> well_keyed (snd (chat msg st)).
Proof.
  intros [Hnd Hkeys].
  destruct (chat_store_cases msg st)
    as [->|[(s & nm & p & ->)|[(s & _ & ->)|(s & old & p & Hold & ->)]]].
  - now split.
  - split; [now apply DictFacts.set_keeps_unique|].
    apply DictMore.Forall_set; [|exact Hkeys]. cbn. symmetry. apply upper_idem.
  - split; [now apply DictMore.keys_del_unique|now apply DictMore.Forall_del].
  - split; [now apply DictFacts.set_keeps_unique|].
    apply DictMore.Forall_set; [|exact Hkeys]. cbn.
    apply get_In in Hold. rewrite List.Forall_forall in Hkeys.
    exact (Hkeys _ Hold).
Qed.

(** X11. A message that is empty or made of white space only gets the
    usage reply, and the store is not changed. *)
Theorem chat_blank_gets_usage msg st :
  all_space msg = true ->
  chat msg st = ({| reply := usage_text; stocks := Dict.values st |}, st).
Proof.
  intros H. unfold Backend.chat, strip.
  rewrite (lstrip_all_space msg H). reflexivity.
Qed.

(** X12. White space before and after a message makes no difference to
    the reply or to the store. *)
Theorem chat_ignores_padding (pre post : string) msg st :
  all_space pre = true -> all_space post = true ->
  chat (String.append pre (String.append msg post)) st = chat msg st.
Proof.
  intros Hpre Hpost. unfold Backend.chat.
  now rewrite (strip_padded pre msg post Hpre Hpost).
Qed.

(** X13. The command word and the symbol are read without regard to
    letter case: two messages whose first tokens agree up to case, whose
    second tokens agree up to case and whose remaining tokens are the same
    get the same reply and leave the same store. *)
Theorem chat_case_insensitive (m1 m2 : string) st c1 c2 s1 s2 rest :
  split (strip m1) = c1 :: s1 :: rest ->
  split (strip m2) = c2 :: s2 :: rest ->
  lower c1 = lower c2 ->
  upper s1 = upper s2 ->
  chat m1 st = chat m2 st.
Proof.
  intros H1 H2 Hc Hs. unfold Backend.chat.
  rewrite (not_the_list_command m1 _ _ H1) by (right; discriminate).
  rewrite (not_the_list_command m2 _ _ H2) by (right; discriminate).
  rewrite H1, H2, Hc. cbn [nth length]. rewrite Hs.
  rewrite !slice_2_m1_tail.
  destruct rest as [|r rest].
  - cbn [length Nat.leb Nat.eqb]. rewrite !andb_false_r. reflexivity.
  - unfold last_tok. cbn [List.last]. reflexivity.
Qed.

(** X14. [remove SYM] of a symbol that is in the store deletes that key
    and nothing else: the other records are kept in their order, and with
    unique keys the store has one record less.  The same [remove] again is
    answered with "not in your list" and changes nothing. *)
Theorem chat_remove_deletes msg st cmd s :
  split (strip msg) = [cmd; s] ->
  lower cmd = "remove" ->
  Dict.mem (upper s) st = true ->
  let st' := snd (chat msg st) in
  reply pyfloat (fst (chat msg st))
  = String.append "Removed " (String.append (upper s) ".")
  /\ Dict.get (upper s) st' = None
  /\ st' = List.filter (fun kv => negb (String.eqb (upper s) (fst kv))) st
  /\ (NoDup (Dict.keys st) -> S (Dict.len st') = Dict.len st)
  /\ chat msg st'
     = ({| reply := not_in_list (upper s); stocks := Dict.values st' |}, st').
Proof.
  intros Hs Hcmd Hmem st'. subst st'.
  assert (Hrm : chat msg st
                = respond pyfloat
                    (String.append "Removed " (String.append (upper s) "."))
                    (Dict.del (upper s) st)).
  { unfold Backend.chat.
    rewrite (not_the_list_command msg _ _ Hs) by (right; discriminate).
    rewrite Hs, Hcmd.
    cbn [String.eqb Ascii.eqb Bool.eqb andb nth length Nat.leb Nat.eqb].
    now rewrite Hmem. }
  rewrite Hrm. cbn [respond fst snd reply].
  split; [reflexivity|]. split; [apply DictMore.get_del_eq|].
  split; [apply DictMore.del_filter|].
  split; [intros Hnd; now apply DictMore.length_del_present|].
  apply (chat_rejects_absent_remove msg (Dict.del (upper s) st) cmd s Hs Hcmd).
  unfold Dict.mem. now rewrite DictMore.get_del_eq.
Qed.

(** X15. [add SYM ...] of a symbol that is not in the store followed by
    [remove SYM] (in any letter case) gives back the store exactly as it
    was. *)
Theorem chat_add_then_remove_restores (m_add m_rm : string) st
    cmd s name_toks price_tok p cmd' s' :
  split (strip m_add) = cmd :: s :: name_toks ++ [price_tok] ->
  lower cmd = "add" ->
  name_toks <> [] ->
  float_of_str price_tok = Some p ->
  split (strip m_rm) = [cmd'; s'] ->
  lower cmd' = "remove" ->
  upper s' = upper s ->
  Dict.mem (upper s) st = false ->
  snd (chat m_rm (snd (chat m_add st))) = st.
Proof.
  intros Ha Hcmd Hname Hp Hr Hcmd' Hs Hmem.
  rewrite (chat_add_ok _ _ _ m_add st cmd s name_toks price_tok p)
    by assumption.
  cbn [respond snd]. unfold Backend.chat.
  rewrite (not_the_list_command m_rm _ _ Hr) by (right; discriminate).
  rewrite Hr, Hcmd'.
  cbn [String.eqb Ascii.eqb Bool.eqb andb nth length Nat.leb Nat.eqb].
  rewrite Hs.
  replace (Dict.mem (upper s) (Dict.set (upper s) _ st)) with true
    by (symmetry; apply DictMore.mem_get; eexists;
        apply DictFacts.get_set_eq).
  cbn [negb respond snd]. now apply DictMore.del_set_absent.
Qed.

(** X16. Where [add] puts the record: a new symbol goes to the end of the
    listing; a symbol that is already there keeps its place, and the
    number of records does not change. *)
Theorem chat_add_position msg st cmd s name_toks price_tok p :
  split (strip msg) = cmd :: s :: name_toks ++ [price_tok] ->
  lower cmd = "add" ->
  name_toks <> [] ->
  float_of_str price_tok = Some p ->
  let st' := snd (chat msg st) in
  let r := {| symbol := upper s; name := join " " name_toks;
              price := p; notes := None |} in
  (Dict.mem (upper s) st = false ->
   stocks pyfloat (fst (chat msg st)) = Dict.values st ++ [r])
  /\ (Dict.mem (upper s) st = true ->
      Dict.keys st' = Dict.keys st /\ Dict.len st' = Dict.len st).
Proof.
  intros Hs Hcmd Hname Hp st' r. subst st'.
  rewrite (chat_add_ok _ _ _ msg st cmd s name_toks price_tok p)
    by assumption.
  cbn [respond fst snd stocks]. split; intros Hmem.
  - rewrite DictFacts.set_absent by assumption.
    unfold Dict.values. now rewrite map_app.
  - split; [now apply DictFacts.keys_set_present
           |now apply DictFacts.length_set_present].
Qed.

End ChatMore.

(** ** More of the earnings normalizer *)

Lemma leb_antisym (a b : date) :
  leb a b = true -> leb b a = true -> a = b.
Proof.
  rewrite !DateFacts.leb_le. unfold DateFacts.lt.
  destruct a as [ya ma da], b as [yb mb db]. cbn [year month day].
  intros H1 H2.
  assert (ya = yb) by lia. assert (ma = mb) by lia. assert (da = db) by lia.
  now subst.
Qed.

Lemma ltb_not_leb (a b : date) : ltb a b = true -> leb b a = false.
Proof. unfold leb. now intros ->. Qed.

Lemma filter_filter_implies {A} (f g : A -> bool) (l : list A) :
  (forall x, f x = true -> g x = true) ->
  List.filter f (List.filter g l) = List.filter f l.
Proof.
  intros Himp. induction l as [|x l IH]; [reflexivity|].
  cbn [List.filter]. destruct (g x) eqn:Eg; cbn [List.filter].
  - now rewrite IH.
  - destruct (f x) eqn:Ef; [|exact IH].
    rewrite (Himp x Ef) in Eg. discriminate.
Qed.

Lemma filter_none {A} (f : A -> bool) (l : list A) :
  Forall (fun x => f x = false) l -> List.filter f l = [].
Proof.
  induction 1 as [|x l Hx Hl IH]; [reflexivity|].
  cbn [List.filter]. now rewrite Hx.
Qed.

Lemma Forall2_map_same {A B} (P : B -> B -> Prop) (f g : A -> B)
    (l : list A) :
  (forall x, P (f x) (g x)) -> Forall2 P (map f l) (map g l).
Proof. intros H. induction l; cbn [map]; constructor; auto. Qed.

Lemma strip_empty_iff (s : string) :
  strip s = EmptyString <-> all_space s = true.
Proof.
  split.
  - unfold strip, all_space. induction s as [|c s IH]; [reflexivity|].
    cbn [lstrip list_ascii_of_string forallb].
    destruct (is_space c) eqn:E; [exact IH|].
    cbn [rstrip]. rewrite E. destruct (rstrip s); discriminate.
  - intros H. unfold strip. now rewrite lstrip_all_space.
Qed.

Section EarningsMore.

Variable pyfloat : Type.
Variable float_of_str : string -> option pyfloat.
Variable fromisoformat : string -> option date.

Abbreviation row := (row pyfloat).
Abbreviation Entry := (Entry pyfloat).
Abbreviation World := (World pyfloat).
Abbreviation scan_keys := (scan_keys pyfloat float_of_str).
Abbreviation first_usable := (first_usable pyfloat float_of_str).
Abbreviation breaks := (breaks pyfloat float_of_str).
Abbreviation events_before_break := (events_before_break pyfloat float_of_str).
Abbreviation fill_entry := (fill_entry pyfloat float_of_str).
Abbreviation compared_rows := (compared_rows pyfloat).
Abbreviation collect_rows := (collect_rows pyfloat fromisoformat).
Abbreviation index_date := (index_date fromisoformat).
Abbreviation symbol_entry := (symbol_entry pyfloat float_of_str fromisoformat).
Abbreviation get_earnings_calendar :=
  (get_earnings_calendar pyfloat float_of_str fromisoformat).
Abbreviation fresh_entry := (fresh_entry pyfloat).
Abbreviation fetch_frame := (fetch_frame pyfloat).

(** X17. No entry has more than max(num - 1, 0) past events, whatever the
    source returns. *)
Theorem calendar_past_is_bounded (w : World) (t : nat)
    (symbols : symbols_arg) (num : Z) :
  Forall (fun e => length (past_earnings pyfloat e)
                   <= Z.to_nat (Z.max (num - 1) 0))
    (fst (get_earnings_calendar w t symbols num)).
Proof.
  rewrite get_earnings_calendar_unfold. cbn [fst].
  apply List.Forall_forall. intros e He.
  apply in_map_iff in He as (sym & <- & _).
  destruct (symbol_entry_rows pyfloat float_of_str fromisoformat
              w (clock pyfloat w t) (effective_num num) sym)
    as [rows Hrows].
  rewrite (Hrows _ eq_refl).
  destruct (fill_entry_shape pyfloat float_of_str
              (clock pyfloat w t) rows sym) as (nd & ne & sel & cut & H).
  destruct (H (effective_num num)) as (_ & _ & _ & ->).
  destruct cut; cbn [length]; [lia|].
  etransitivity; [apply events_before_break_length|].
  rewrite length_take, max_past_effective. lia.
Qed.

(** X18. For [num] up to 4 the source is asked for the same eight events,
    so asking for more events only adds older ones: the call with the
    smaller [num] gives, symbol by symbol, the same next event and the
    leading part of the past events of the call with the larger [num]. *)
Theorem calendar_more_events_extend (w : World) (t : nat)
    (symbols : symbols_arg) (num num' : Z) :
  (num <= num')%Z -> (num' <= 4)%Z ->
  Forall2
    (fun e e' =>
       e_symbol pyfloat e = e_symbol pyfloat e'
       /\ next_earnings_date pyfloat e = next_earnings_date pyfloat e'
       /\ next_earnings_estimate pyfloat e = next_earnings_estimate pyfloat e'
       /\ past_earnings pyfloat e
          = take (Z.to_nat (Z.max (num - 1) 0)) (past_earnings pyfloat e'))
    (fst (get_earnings_calendar w t symbols num))
    (fst (get_earnings_calendar w t symbols num')).
Proof.
  intros Hle H4. rewrite !get_earnings_calendar_unfold. cbn [fst].
  apply Forall2_map_same. intros sym.
  destruct (symbol_entry_rows pyfloat float_of_str fromisoformat
              w (clock pyfloat w t) (effective_num num) sym)
    as [rows Hrows].
  assert (Hlim : Z.max (effective_num num' + 4) 8
                 = Z.max (effective_num num + 4) 8).
  { unfold effective_num.
    destruct (Z.leb_spec num 0), (Z.leb_spec num' 0); lia. }
  rewrite (Hrows _ eq_refl), (Hrows _ Hlim).
  destruct (fill_entry_shape pyfloat float_of_str
              (clock pyfloat w t) rows sym) as (nd & ne & sel & cut & H).
  destruct (H (effective_num num)) as (-> & -> & -> & ->).
  destruct (H (effective_num num')) as (-> & -> & -> & ->).
  repeat split.
  destruct cut; [now rewrite take_nil|].
  rewrite !max_past_effective.
  rewrite !events_before_break_take, take_take. f_equal. lia.
Qed.

Lemma collect_rows_undated (pre post : list (index * row)) idx (r : row) :
  index_date idx = None ->
  collect_rows (pre ++ (idx, r) :: post) = collect_rows (pre ++ post).
Proof.
  intros Hidx.
  induction pre as [|[i0 r0] pre IH]; cbn [app Earnings.collect_rows].
  - now rewrite Hidx.
  - now rewrite IH.
Qed.

(** X19. A row whose index gives no date is dropped without a trace: the
    entry is the one the same frame without that row would give. *)
Theorem undated_row_is_dropped (w w' : World) (today : date) (num : Z)
    (sym : string) tk tk' df df' pre post idx (r : row) :
  Ticker pyfloat w sym = Returns tk ->
  Ticker pyfloat w' sym = Returns tk' ->
  fetch_frame tk num = Returns (Some df) ->
  fetch_frame tk' num = Returns (Some df') ->
  empty pyfloat df = false ->
  empty pyfloat df' = false ->
  iterrows pyfloat df = Returns (pre ++ (idx, r) :: post) ->
  iterrows pyfloat df' = Returns (pre ++ post) ->
  index_date idx = None ->
  symbol_entry w today num sym = symbol_entry w' today num sym.
Proof.
  intros Ht Ht' Hf Hf' He He' Hi Hi' Hidx.
  rewrite (symbol_entry_readable _ _ _ w today num sym _ _ _ Ht Hf He Hi).
  rewrite (symbol_entry_readable _ _ _ w' today num sym _ _ _ Ht' Hf' He' Hi').
  now rewrite collect_rows_undated.
Qed.

(** X20. When several rows carry the earliest date that is not before
    today, the next event is the one of them that comes first in the frame:
    its date is [next_earnings_date], and [next_earnings_estimate] is what
    the key loop on its row gives: the first usable estimate of that row
    when the loop returns (as it does when no candidate value makes
    [float] raise anything but [TypeError] or [ValueError]), and [None]
    when the loop raises. *)
Theorem next_event_is_first_in_frame (w : World) (today : date) (num : Z)
    (sym : string) tk df raw pre d (r : row) post :
  Ticker pyfloat w sym = Returns tk ->
  fetch_frame tk num = Returns (Some df) ->
  empty pyfloat df = false ->
  iterrows pyfloat df = Returns raw ->
  compared_rows (collect_rows raw) = Returns (pre ++ (d, r) :: post) ->
  geb d today = true ->
  Forall (fun p => ltb (fst p) today = true \/ ltb d (fst p) = true) pre ->
  Forall (fun p => ltb (fst p) today = true \/ leb d (fst p) = true) post ->
  let e := symbol_entry w today num sym in
  let keys := ["EPS Estimate"; "epsestimate"; "Estimate"; "estimate"] in
  next_earnings_date pyfloat e = Some (isoformat d)
  /\ match scan_keys keys r with
     | Returns est =>
         next_earnings_estimate pyfloat e = est
         /\ est = first_usable keys r
     | Raises => next_earnings_estimate pyfloat e = None
     end
  /\ ((forall k, In k keys -> breaks r k = false) ->
      next_earnings_estimate pyfloat e = first_usable keys r).
Proof.
  intros Ht Hf He Hi Hrows Hd Hpre Hpost e keys. subst e.
  rewrite (symbol_entry_readable _ _ _ w today num sym _ _ _ Ht Hf He Hi).
  set (rows := pre ++ (d, r) :: post) in *.
  destruct (fill_entry_fields pyfloat float_of_str today num
              (collect_rows raw) rows sym Hrows) as (_ & H2 & H3 & _).
  cbn zeta in H2, H3.
  set (sorted := sort_by leb rows) in *.
  remember (List.filter (fun p : date * row => geb (fst p) today) sorted)
    as future eqn:Efut.
  assert (Hperm : Permutation sorted rows) by apply sort_by_perm.
  assert (Hsorted : ascending future).
  { rewrite Efut. apply filter_sorted, sort_by_sorted;
      [apply DateFacts.leb_total | apply DateFacts.leb_trans]. }
  assert (Hin : In (d, r) future).
  { rewrite Efut. apply filter_In. split; [|exact Hd].
    apply (Permutation_in _ (Permutation_sym Hperm)).
    subst rows. apply in_or_app. right. now left. }
  destruct future as [|[d' r'] future']; [destruct Hin|].
  unfold Spec.next_date_of in H2. unfold Spec.next_scan_of in H3.
  cbn [head option_map fst snd] in H2, H3.
  (* the head is in the frame, is not before today and is not after [d] *)
  assert (Hhead : In (d', r') rows /\ geb d' today = true).
  { assert (H : In (d', r')
                  (List.filter (fun p => geb (fst p) today) sorted))
      by (rewrite <- Efut; now left).
    apply filter_In in H as [H1 H2']. split; [|exact H2'].
    exact (Permutation_in _ Hperm H1). }
  destruct Hhead as [Hrow Hd'].
  assert (Hle : leb d' d = true).
  { destruct Hin as [[= <- <-]|Hin]; [apply DateFacts.leb_refl|].
    apply StronglySorted_inv in Hsorted as [_ Hall].
    rewrite List.Forall_forall in Hall. exact (Hall _ Hin). }
  assert (Heq : d' = d).
  { subst rows. apply in_app_or in Hrow as [Hrow|[Hrow|Hrow]].
    - rewrite List.Forall_forall in Hpre.
      destruct (Hpre _ Hrow) as [H|H]; cbn [fst] in H.
      + rewrite DateFacts.ltb_geb, Hd' in H. discriminate.
      + apply ltb_not_leb in H. congruence.
    - now injection Hrow as <- _.
    - rewrite List.Forall_forall in Hpost.
      destruct (Hpost _ Hrow) as [H|H]; cbn [fst] in H.
      + rewrite DateFacts.ltb_geb, Hd' in H. discriminate.
      + now apply leb_antisym. }
  subst d'.
  (* rows dated [d] keep their frame order through the sort *)
  assert (Hr : r' = r).
  { set (sel := fun x : date => leb x d && leb d x).
    assert (Hsel_d : sel d = true)
      by (unfold sel; now rewrite DateFacts.leb_refl).
    assert (Hstable :
              List.filter (fun p : date * row => sel (fst p)) sorted
              = List.filter (fun p : date * row => sel (fst p)) rows).
    { apply sort_by_stable. intros a b Ha Hb. unfold sel in Ha, Hb.
      apply andb_true_iff in Ha as [Ha _], Hb as [_ Hb].
      exact (DateFacts.leb_trans _ _ _ Ha Hb). }
    assert (Hsub :
              List.filter (fun p : date * row => sel (fst p)) sorted
              = List.filter (fun p : date * row => sel (fst p))
                  ((d, r') :: future')).
    { rewrite Efut. symmetry.
      apply filter_filter_implies. intros [x rx] Hx. cbn [fst] in *.
      unfold sel in Hx. apply andb_true_iff in Hx as [_ Hx].
      unfold geb in *. exact (DateFacts.leb_trans _ _ _ Hd Hx). }
    rewrite Hsub in Hstable. subst rows.
    rewrite List.filter_app in Hstable. cbn [List.filter fst] in Hstable.
    rewrite Hsel_d in Hstable.
    rewrite (filter_none (fun p : date * row => sel (fst p)) pre) in Hstable.
    - cbn [app] in Hstable. now injection Hstable as ->.
    - eapply Forall_impl; [exact Hpre|]. intros [x rx] [H|H]; cbn [fst] in *.
      + unfold sel. apply andb_false_iff. right.
        destruct (leb d x) eqn:E; [|reflexivity].
        assert (Hx : geb x today = true)
          by (unfold geb in *; exact (DateFacts.leb_trans _ _ _ Hd E)).
        rewrite DateFacts.ltb_geb, Hx in H. discriminate.
      + unfold sel. apply andb_false_iff. left. now apply ltb_not_leb. }
  subst r'. unfold Earnings.estimate_keys in H3. fold keys in H3.
  split; [exact H2|]. split.
  - destruct (scan_keys keys r) as [est|] eqn:Es; [|exact H3].
    split; [exact H3|].
    exact (scan_keys_returns pyfloat float_of_str keys r est Es).
  - intros Hsound. rewrite H3.
    now rewrite (scan_keys_sound pyfloat float_of_str keys r Hsound).
Qed.

(** X21. Every entry carries a symbol that is not empty and has no
    lower-case letter left in it (upper-casing it again changes nothing). *)
Theorem calendar_symbols_are_canonical (w : World) (t : nat)
    (symbols : symbols_arg) (num : Z) :
  Forall (fun e => e_symbol pyfloat e <> EmptyString
                   /\ upper (e_symbol pyfloat e) = e_symbol pyfloat e)
    (fst (get_earnings_calendar w t symbols num)).
Proof.
  rewrite get_earnings_calendar_unfold. cbn [fst].
  apply List.Forall_forall. intros e He.
  apply in_map_iff in He as (sym & <- & Hsym).
  rewrite symbol_entry_symbol.
  unfold normalized in Hsym.
  apply in_map_iff in Hsym as (s & <- & Hs).
  apply filter_In in Hs as [_ Hs].
  apply negb_true_iff, String.eqb_neq in Hs.
  split; [|apply upper_idem].
  intros H. apply Hs. now apply upper_empty.
Qed.

(** X22. The result is empty exactly when every input symbol is blank:
    [None], empty, or white space only. *)
Theorem calendar_empty_iff_all_blank (w : World) (t : nat)
    (l : list (option string)) (num : Z) :
  fst (get_earnings_calendar w t (ManySymbols l) num) = []
  <-> Forall (fun o => all_space (default EmptyString o) = true) l.
Proof.
  rewrite get_earnings_calendar_unfold. cbn [fst]. unfold normalized.
  assert (Hnil : forall A B (f : A -> B) (k : list A),
             map f k = [] <-> k = [])
    by (intros A B f [|x k]; split; (reflexivity || discriminate)).
  rewrite !Hnil. clear Hnil.
  induction l as [|o l IH]; cbn [map List.filter].
  - split; [constructor|reflexivity].
  - destruct (String.eqb (strip (default EmptyString o)) EmptyString) eqn:E;
      cbn [negb].
    + apply String.eqb_eq, strip_empty_iff in E. rewrite IH.
      split; [now constructor|]. intros H. now inversion H.
    + apply String.eqb_neq in E. split; [discriminate|].
      intros H. inversion H as [|? ? Ho _]. subst.
      apply strip_empty_iff in Ho. contradiction.
Qed.

End EarningsMore.


(** *** The further properties on concrete inputs *)

Lemma demo_store_well_keyed : Crud.well_keyed Demo.pyfloat Demo.store.
Proof.
  split.
  - apply (bool_decide_unpack _). vm_compute. reflexivity.
  - repeat constructor.
Defined.

Lemma add_stock_keeps_existing_witness :
  Dict.get "MSFT" Demo.store = Some Demo.msft
  /\ Dict.mem (upper "aapl") Demo.store = true
  /\ Dict.get "MSFT"
       (snd (Crud.add_stock Demo.pyfloat Demo.nvda Demo.store))
     = Some Demo.msft
  /\ Crud.add_stock Demo.pyfloat
       {| symbol := "aapl"; name := "Other"; price := "1"; notes := None |}
       Demo.store
     = (Crud.Raised {| Crud.status_code := 400;
                       Crud.detail := "Stock already exists" |}, Demo.store).
Proof.
  split; [reflexivity|]. split; [reflexivity|]. split.
  - destruct (add_stock_keeps_existing Demo.pyfloat Demo.nvda Demo.store)
      as (Hkeep & _ & _).
    exact (Hkeep "MSFT" Demo.msft eq_refl).
  - destruct (add_stock_keeps_existing Demo.pyfloat
                {| symbol := "aapl"; name := "Other"; price := "1";
                   notes := None |} Demo.store) as (_ & Hraise & _).
    exact (Hraise eq_refl).
Defined.

Lemma add_stock_appends_witness :
  Dict.mem (upper "nvda") Demo.store = false
  /\ Dict.get "NVDA" (snd (Crud.add_stock Demo.pyfloat Demo.nvda Demo.store))
     = Some Demo.nvda
  /\ Crud.list_stocks Demo.pyfloat
       (snd (Crud.add_stock Demo.pyfloat Demo.nvda Demo.store))
     = [Demo.apple; Demo.msft; Demo.nvda].
Proof.
  split; [reflexivity|].
  destruct (add_stock_appends Demo.pyfloat Demo.nvda Demo.store eq_refl)
    as (_ & Hget & Hlist).
  split; [exact Hget | exact Hlist].
Defined.

Lemma add_stock_twice_refused_witness :
  upper "NVDA" = upper "nvda"
  /\ fst (Crud.add_stock Demo.pyfloat
            {| symbol := "NVDA"; name := "Nvidia Corp"; price := "141";
               notes := None |}
            (snd (Crud.add_stock Demo.pyfloat Demo.nvda Demo.store)))
     = Crud.Raised {| Crud.status_code := 400;
                      Crud.detail := "Stock already exists" |}.
Proof.
  split; [reflexivity|].
  rewrite (add_stock_twice_refused Demo.pyfloat Demo.nvda
             {| symbol := "NVDA"; name := "Nvidia Corp"; price := "141";
                notes := None |} Demo.store eq_refl).
  reflexivity.
Defined.

Lemma update_stock_replaces_witness :
  Dict.mem (upper "msft") Demo.store = true
  /\ Dict.mem (upper "nvda") Demo.store = false
  /\ Dict.get "MSFT"
       (snd (Crud.update_stock Demo.pyfloat "msft" Demo.nvda Demo.store))
     = Some {| symbol := "MSFT"; name := "Nvidia"; price := "140.2";
               notes := Some "watch" |}
  /\ Dict.keys
       (snd (Crud.update_stock Demo.pyfloat "msft" Demo.nvda Demo.store))
     = ["AAPL"; "MSFT"]
  /\ Crud.update_stock Demo.pyfloat "nvda" Demo.nvda Demo.store
     = (Crud.Raised {| Crud.status_code := 404;
                       Crud.detail := "Stock not found" |}, Demo.store).
Proof.
  split; [reflexivity|]. split; [reflexivity|].
  destruct (update_stock_replaces Demo.pyfloat "msft" Demo.nvda Demo.store)
    as [Hpresent _].
  destruct (Hpresent eq_refl) as (_ & Hget & _ & Hkeys).
  destruct (update_stock_replaces Demo.pyfloat "nvda" Demo.nvda Demo.store)
    as [_ Habsent].
  split; [exact Hget|]. split; [exact Hkeys | exact (Habsent eq_refl)].
Defined.

Lemma delete_stock_removes_witness :
  Dict.mem (upper "aapl") Demo.store = true
  /\ upper "Aapl" = upper "aapl"
  /\ snd (Crud.delete_stock Demo.pyfloat "aapl" Demo.store)
     = [("MSFT", Demo.msft)]
  /\ fst (Crud.delete_stock Demo.pyfloat "Aapl"
            (snd (Crud.delete_stock Demo.pyfloat "aapl" Demo.store)))
     = Crud.Raised {| Crud.status_code := 404;
                      Crud.detail := "Stock not found" |}.
Proof.
  split; [reflexivity|]. split; [reflexivity|].
  destruct (delete_stock_removes Demo.pyfloat "aapl" "Aapl" Demo.store
              eq_refl eq_refl) as (_ & _ & _ & Hfilter & Hagain).
  split; [exact Hfilter|]. rewrite Hagain. reflexivity.
Defined.

Lemma add_then_delete_restores_witness :
  Dict.mem (upper "nvda") Demo.store = false
  /\ upper "Nvda" = upper "nvda"
  /\ snd (Crud.delete_stock Demo.pyfloat "Nvda"
            (snd (Crud.add_stock Demo.pyfloat Demo.nvda Demo.store)))
     = Demo.store.
Proof.
  split; [reflexivity|]. split; [reflexivity|].
  exact (add_then_delete_restores Demo.pyfloat Demo.nvda "Nvda" Demo.store
           eq_refl eq_refl).
Defined.

Lemma crud_keeps_well_keyed_witness :
  Crud.well_keyed Demo.pyfloat Demo.store
  /\ Crud.well_keyed Demo.pyfloat
       (snd (Crud.add_stock Demo.pyfloat Demo.nvda Demo.store))
  /\ Crud.well_keyed Demo.pyfloat
       (snd (Crud.update_stock Demo.pyfloat "msft" Demo.nvda Demo.store))
  /\ Crud.well_keyed Demo.pyfloat
       (snd (Crud.delete_stock Demo.pyfloat "aapl" Demo.store)).
Proof.
  split; [exact demo_store_well_keyed|].
  destruct (crud_keeps_well_keyed Demo.pyfloat Demo.nvda "msft" Demo.store
              demo_store_well_keyed) as (Hadd & Hupd & _).
  destruct (crud_keeps_well_keyed Demo.pyfloat Demo.nvda "aapl" Demo.store
              demo_store_well_keyed) as (_ & _ & Hdel).
  split; [exact Hadd|]. split; [exact Hupd | exact Hdel].
Defined.

Lemma chat_touches_one_key_witness :
  NoDup (Dict.keys Demo.store)
  /\ (exists key, forall k, k <> key ->
        Dict.get k (snd (Demo.chat "remove msft" Demo.store))
        = Dict.get k Demo.store)
  /\ Dict.len Demo.store
     <= S (Dict.len (snd (Demo.chat "remove msft" Demo.store))).
Proof.
  destruct (chat_touches_one_key Demo.pyfloat Demo.float_of_str
              Demo.str_of_float "remove msft" Demo.store)
    as (Hkey & _ & Hlen).
  split; [exact (proj1 demo_store_well_keyed)|].
  split; [exact Hkey|]. exact (Hlen (proj1 demo_store_well_keyed)).
Defined.

Lemma chat_keeps_well_keyed_witness :
  Crud.well_keyed Demo.pyfloat Demo.store
  /\ Crud.well_keyed Demo.pyfloat
       (snd (Demo.chat "add nvda Nvidia Corp 140.2" Demo.store)).
Proof.
  split; [exact demo_store_well_keyed|].
  exact (chat_keeps_well_keyed Demo.pyfloat Demo.float_of_str
           Demo.str_of_float "add nvda Nvidia Corp 140.2" Demo.store
           demo_store_well_keyed).
Defined.

Lemma chat_blank_gets_usage_witness :
  all_space "   " = true
  /\ Demo.chat "   " Demo.store
     = ({| reply := usage_text; stocks := [Demo.apple; Demo.msft] |},
        Demo.store).
Proof.
  split; [reflexivity|].
  exact (chat_blank_gets_usage Demo.pyfloat Demo.float_of_str
           Demo.str_of_float "   " Demo.store eq_refl).
Defined.

Lemma chat_ignores_padding_witness :
  all_space "  " = true
  /\ all_space " " = true
  /\ Demo.chat (String.append "  " (String.append "remove aapl" " "))
       Demo.store
     = Demo.chat "remove aapl" Demo.store.
Proof.
  split; [reflexivity|]. split; [reflexivity|].
  exact (chat_ignores_padding Demo.pyfloat Demo.float_of_str
           Demo.str_of_float "  " " " "remove aapl" Demo.store
           eq_refl eq_refl).
Defined.

Lemma chat_case_insensitive_witness :
  split (strip "ADD msft Micro Soft 3.5") = ["ADD"; "msft"; "Micro"; "Soft"; "3.5"]
  /\ split (strip "add MSFT Micro Soft 3.5")
     = ["add"; "MSFT"; "Micro"; "Soft"; "3.5"]
  /\ lower "ADD" = lower "add"
  /\ upper "msft" = upper "MSFT"
  /\ Demo.chat "ADD msft Micro Soft 3.5" Demo.store
     = Demo.chat "add MSFT Micro Soft 3.5" Demo.store.
Proof.
  split; [reflexivity|]. split; [reflexivity|]. split; [reflexivity|].
  split; [reflexivity|].
  exact (chat_case_insensitive Demo.pyfloat Demo.float_of_str
           Demo.str_of_float "ADD msft Micro Soft 3.5"
           "add MSFT Micro Soft 3.5" Demo.store
           "ADD" "add" "msft" "MSFT" ["Micro"; "Soft"; "3.5"]
           eq_refl eq_refl eq_refl eq_refl).
Defined.

Lemma chat_remove_deletes_witness :
  split (strip "Remove aapl") = ["Remove"; "aapl"]
  /\ Dict.mem (upper "aapl") Demo.store = true
  /\ NoDup (Dict.keys Demo.store)
  /\ snd (Demo.chat "Remove aapl" Demo.store) = [("MSFT", Demo.msft)]
  /\ S (Dict.len (snd (Demo.chat "Remove aapl" Demo.store))) = 2
  /\ reply Demo.pyfloat
       (fst (Demo.chat "Remove aapl"
               (snd (Demo.chat "Remove aapl" Demo.store))))
     = "AAPL is not in your list.".
Proof.
  split; [reflexivity|]. split; [reflexivity|].
  split; [exact (proj1 demo_store_well_keyed)|].
  destruct (chat_remove_deletes Demo.pyfloat Demo.float_of_str
              Demo.str_of_float "Remove aapl" Demo.store "Remove" "aapl"
              eq_refl eq_refl eq_refl)
    as (_ & _ & Hfilter & Hlen & Hagain).
  split; [exact Hfilter|].
  split; [exact (Hlen (proj1 demo_store_well_keyed))|].
  unfold Demo.chat. rewrite Hagain. reflexivity.
Defined.

Lemma chat_add_then_remove_restores_witness :
  split (strip "add nvda Nvidia Corp 140.2")
  = ["add"; "nvda"; "Nvidia"; "Corp"; "140.2"]
  /\ Demo.float_of_str "140.2" = Some "140.2"
  /\ split (strip "remove NVDA") = ["remove"; "NVDA"]
  /\ Dict.mem (upper "nvda") Demo.store = false
  /\ snd (Demo.chat "remove NVDA"
            (snd (Demo.chat "add nvda Nvidia Corp 140.2" Demo.store)))
     = Demo.store.
Proof.
  split; [reflexivity|]. split; [reflexivity|]. split; [reflexivity|].
  split; [reflexivity|].
  apply (chat_add_then_remove_restores Demo.pyfloat Demo.float_of_str
           Demo.str_of_float "add nvda Nvidia Corp 140.2" "remove NVDA"
           Demo.store "add" "nvda" ["Nvidia"; "Corp"] "140.2" "140.2"
           "remove" "NVDA"); try reflexivity.
  discriminate.
Defined.

Lemma chat_add_position_witness :
  split (strip "add nvda Nvidia Corp 140.2")
  = ["add"; "nvda"; "Nvidia"; "Corp"; "140.2"]
  /\ Dict.mem (upper "nvda") Demo.store = false
  /\ stocks Demo.pyfloat
       (fst (Demo.chat "add nvda Nvidia Corp 140.2" Demo.store))
     = [Demo.apple; Demo.msft;
        {| symbol := "NVDA"; name := "Nvidia Corp"; price := "140.2";
           notes := None |}]
  /\ Dict.mem (upper "aapl") Demo.store = true
  /\ Dict.keys (snd (Demo.chat "add aapl Apple Inc 201" Demo.store))
     = ["AAPL"; "MSFT"].
Proof.
  split; [reflexivity|]. split; [reflexivity|].
  destruct (chat_add_position Demo.pyfloat Demo.float_of_str
              Demo.str_of_float "add nvda Nvidia Corp 140.2" Demo.store
              "add" "nvda" ["Nvidia"; "Corp"] "140.2" "140.2")
    as [Hnew _]; try reflexivity; try discriminate.
  destruct (chat_add_position Demo.pyfloat Demo.float_of_str
              Demo.str_of_float "add aapl Apple Inc 201" Demo.store
              "add" "aapl" ["Apple"; "Inc"] "201" "201")
    as [_ Hold]; try reflexivity; try discriminate.
  split; [exact (Hnew eq_refl)|]. split; [reflexivity|].
  exact (proj1 (Hold eq_refl)).
Defined.

Lemma calendar_more_events_extend_witness :
  (2 <= 4)%Z /\ (4 <= 4)%Z
  /\ Forall2
       (fun e e' =>
          e_symbol Demo.pyfloat e = e_symbol Demo.pyfloat e'
          /\ next_earnings_date Demo.pyfloat e
             = next_earnings_date Demo.pyfloat e'
          /\ next_earnings_estimate Demo.pyfloat e
             = next_earnings_estimate Demo.pyfloat e'
          /\ past_earnings Demo.pyfloat e
             = take (Z.to_nat (Z.max (2 - 1) 0))
                 (past_earnings Demo.pyfloat e'))
       (fst (Demo.get_earnings_calendar Demo.world 0
               (ManySymbols [Some "aapl"; Some "tsla"]) 2))
       (fst (Demo.get_earnings_calendar Demo.world 0
               (ManySymbols [Some "aapl"; Some "tsla"]) 4)).
Proof.
  split; [lia|]. split; [lia|].
  apply (calendar_more_events_extend Demo.pyfloat Demo.float_of_str
           Demo.fromisoformat Demo.world 0
           (ManySymbols [Some "aapl"; Some "tsla"]) 2 4); lia.
Defined.

Lemma undated_row_is_dropped_witness :
  index_date Demo.fromisoformat (Label "not a date") = None
  /\ symbol_entry Demo.pyfloat Demo.float_of_str Demo.fromisoformat
       Demo.world (mkDate 2026 11 3) 3 "AAPL"
     = symbol_entry Demo.pyfloat Demo.float_of_str Demo.fromisoformat
         Demo.world_dated (mkDate 2026 11 3) 3 "AAPL".
Proof.
  split; [reflexivity|].
  apply (undated_row_is_dropped Demo.pyfloat Demo.float_of_str
           Demo.fromisoformat Demo.world Demo.world_dated (mkDate 2026 11 3)
           3 "AAPL" Demo.apple_ticker Demo.apple_ticker_dated
           Demo.apple_frame Demo.apple_frame_dated
           [ (Timestamp (mkDate 2026 7 30), Demo.jul26);
             (Timestamp (mkDate 2027 1 28), Demo.jan27) ]
           [ (Label "2026-04-30 16:00:00", Demo.apr26);
             (Timestamp (mkDate 2026 10 29), Demo.oct26) ]
           (Label "not a date") Demo.apr26); reflexivity.
Defined.

Lemma next_event_is_first_in_frame_witness :
  Ticker Demo.pyfloat Demo.world_dated "NFLX" = Returns Demo.tie_ticker
  /\ compared_rows Demo.pyfloat
       (collect_rows Demo.pyfloat Demo.fromisoformat
          [ (Timestamp (mkDate 2027 3 1), Demo.apr26);
            (Timestamp (mkDate 2026 7 30), Demo.jul26);
            (Timestamp (mkDate 2027 1 28), Demo.oct26);
            (Timestamp (mkDate 2027 1 28), Demo.jan27) ])
     = Returns
         ([ (mkDate 2027 3 1, Demo.apr26); (mkDate 2026 7 30, Demo.jul26) ]
          ++ (mkDate 2027 1 28, Demo.oct26)
             :: [ (mkDate 2027 1 28, Demo.jan27) ])
  /\ next_earnings_date Demo.pyfloat
       (symbol_entry Demo.pyfloat Demo.float_of_str Demo.fromisoformat
          Demo.world_dated (mkDate 2026 11 3) 2 "NFLX")
     = Some "2027-01-28"
  /\ next_earnings_estimate Demo.pyfloat
       (symbol_entry Demo.pyfloat Demo.float_of_str Demo.fromisoformat
          Demo.world_dated (mkDate 2026 11 3) 2 "NFLX")
     = Some "1.60"
  /\ Ticker Demo.pyfloat Demo.world_huge "SAP" = Returns Demo.huge_next_ticker
  /\ next_earnings_date Demo.pyfloat
       (symbol_entry Demo.pyfloat Demo.float_of_str Demo.fromisoformat
          Demo.world_huge (mkDate 2026 11 3) 2 "SAP")
     = Some "2027-01-28"
  /\ next_earnings_estimate Demo.pyfloat
       (symbol_entry Demo.pyfloat Demo.float_of_str Demo.fromisoformat
          Demo.world_huge (mkDate 2026 11 3) 2 "SAP")
     = None.
Proof.
  split; [reflexivity|]. split; [reflexivity|].
  destruct (next_event_is_first_in_frame Demo.pyfloat Demo.float_of_str
              Demo.fromisoformat Demo.world_dated (mkDate 2026 11 3) 2 "NFLX"
              Demo.tie_ticker Demo.tie_frame
              [ (Timestamp (mkDate 2027 3 1), Demo.apr26);
                (Timestamp (mkDate 2026 7 30), Demo.jul26);
                (Timestamp (mkDate 2027 1 28), Demo.oct26);
                (Timestamp (mkDate 2027 1 28), Demo.jan27) ]
              [ (mkDate 2027 3 1, Demo.apr26); (mkDate 2026 7 30, Demo.jul26) ]
              (mkDate 2027 1 28) Demo.oct26
              [ (mkDate 2027 1 28, Demo.jan27) ]
              eq_refl eq_refl eq_refl eq_refl eq_refl eq_refl)
    as (Hdate & _ & Hest).
  - constructor; [right; reflexivity|].
    constructor; [left; reflexivity|]. constructor.
  - constructor; [right; reflexivity|]. constructor.
  - destruct (next_event_is_first_in_frame Demo.pyfloat Demo.float_of_str
                Demo.fromisoformat Demo.world_huge (mkDate 2026 11 3) 2 "SAP"
                Demo.huge_next_ticker Demo.huge_next_frame
                [ (Timestamp (mkDate 2027 1 28), Demo.huge_next);
                  (Timestamp (mkDate 2026 10 29), Demo.oct26) ]
                [] (mkDate 2027 1 28) Demo.huge_next
                [ (mkDate 2026 10 29, Demo.oct26) ]
                eq_refl eq_refl eq_refl eq_refl eq_refl eq_refl)
      as (Hdate' & Hscan & _).
    + constructor.
    + constructor; [left; reflexivity|]. constructor.
    + split; [exact Hdate|]. split.
      * rewrite Hest; [reflexivity|].
        intros k Hk. cbn [In] in Hk.
        destruct Hk as [<-|[<-|[<-|[<-|[]]]]]; reflexivity.
      * split; [reflexivity|]. split; [exact Hdate'|]. exact Hscan.
Defined.

Lemma calendar_empty_iff_all_blank_witness :
  Forall (fun o => all_space (default EmptyString o) = true)
    [None; Some ""; Some "  "]
  /\ fst (Demo.get_earnings_calendar Demo.world 0
            (ManySymbols [None; Some ""; Some "  "]) 3) = [].
Proof.
  assert (H : Forall (fun o => all_space (default EmptyString o) = true)
                [None; Some ""; Some "  "])
    by (repeat constructor).
  split; [exact H|].
  exact (proj2 (calendar_empty_iff_all_blank Demo.pyfloat Demo.float_of_str
                  Demo.fromisoformat Demo.world 0
                  [None; Some ""; Some "  "] 3) H).
Defined.
